(** * TICS: the API handler's token lifecycle (src/api_handler.py)

    A shallow embedding of the class [APIHandler]: its constructor,
    [_authenticate], [refresh_token] and [get_data], followed by the
    properties the specification states about them and by further
    properties read off the code.

    Modelling choices, fixed once for the whole development:
    - Python data that travels through JSON (None, bool, int, str, list,
      dict) is the inductive type [json]; JSON numbers with a fractional
      part are outside the model.
    - [time()] returns a float.  Floats are the binary64 numbers of the
      standard library's [SpecFloat]; the threshold of [refresh_token] is
      computed as Python computes it: the int operand is converted to a
      float (rounded to nearest even, OverflowError when out of range),
      then added and subtracted with IEEE rounding.
    - The object's attributes are the fields of the record [APIHandler];
      [None] in a field means the attribute has not been assigned yet, and
      reading it raises [AttributeError] as in Python.
    - Exceptions do not undo assignments: a computation returns its outcome
      together with the state reached when it stopped.
    - The operating system and the network are an environment [Env]
      (entropy source, clock, transport); what the program consumed from it
      and every request it sent are recorded in [World].
    - [json.dumps(d)] is represented by the value [d] it serialises.
    - Calls to [logger] only observe; the attributes they format were read
      or assigned just before, so they cannot raise, and they are left out. *)

From Stdlib Require Import ZArith String Ascii List Lia SpecFloat.
From stdpp Require Import base option gmap strings pretty list.

Set Warnings "-register-all".

Open Scope Z_scope.

(** ** Python data *)

Inductive json : Type :=
| JNull
| JBool (b : bool)
| JNum (n : Z)
| JStr (s : string)
| JArr (items : list json)
| JObj (fields : list (string * json)).

(** [bool(v)] *)
Definition truthy (v : json) : bool :=
  match v with
  | JNull => false
  | JBool b => b
  | JNum n => negb (n =? 0)%Z
  | JStr s => negb (String.eqb s "")
  | JArr items => match items with [] => false | _ => true end
  | JObj fields => match fields with [] => false | _ => true end
  end.

(** A string argument that may have been left at its default [None]. *)
Definition of_arg (a : option string) : json :=
  match a with Some s => JStr s | None => JNull end.

(** [d.get(key)] on a dict: the value, or [None] when the key is missing. *)
Fixpoint assoc (key : string) (fields : list (string * json)) : json :=
  match fields with
  | [] => JNull
  | (k, v) :: rest => if String.eqb k key then v else assoc key rest
  end.

Definition hex_digit (n : N) : ascii :=
  nth (N.to_nat n) (list_ascii_of_string "0123456789abcdef") "0"%char.

(** [bytes.hex()] *)
Fixpoint hex (bs : list Byte.byte) : string :=
  match bs with
  | [] => ""
  | b :: rest =>
      let n := Byte.to_N b in
      String (hex_digit (n / 16)) (String (hex_digit (n mod 16)) (hex rest))
  end.

Definition dquote : ascii := ascii_of_N 34.
Definition squote : ascii := ascii_of_N 39.
Definition backslash : ascii := ascii_of_N 92.

Fixpoint contains (c : ascii) (s : string) : bool :=
  match s with
  | EmptyString => false
  | String d rest => Ascii.eqb c d || contains c rest
  end.

(** [repr(s)] for a str: single quotes unless the text has a single quote
    and no double quote; backslash, the chosen quote and control characters
    are escaped.  Bytes above 127 stand for printable text and are kept. *)
Fixpoint repr_chars (quote : ascii) (s : string) : string :=
  match s with
  | EmptyString => ""
  | String c rest =>
      let n := N_of_ascii c in
      let shown :=
        if Ascii.eqb c quote || Ascii.eqb c backslash
        then String backslash (String c "")
        else if (n =? 9)%N then "\t"
        else if (n =? 10)%N then "\n"
        else if (n =? 13)%N then "\r"
        else if (n <? 32)%N || (n =? 127)%N
             then "\x" +:+ String (hex_digit (n / 16)) (String (hex_digit (n mod 16)) "")
        else String c "" in
      shown +:+ repr_chars quote rest
  end.

Definition repr_str (s : string) : string :=
  let quote :=
    if contains squote s && negb (contains dquote s) then dquote else squote in
  String quote (repr_chars quote s +:+ String quote "").

(** [repr(v)] *)
Fixpoint py_repr (v : json) : string :=
  match v with
  | JNull => "None"
  | JBool true => "True"
  | JBool false => "False"
  | JNum n => pretty n
  | JStr s => repr_str s
  | JArr items =>
      "[" +:+
      (fix go (l : list json) : string :=
         match l with
         | [] => ""
         | x :: l' =>
             py_repr x +:+ match l' with [] => "" | _ => ", " +:+ go l' end
         end) items +:+ "]"
  | JObj fields =>
      "{" +:+
      (fix go (l : list (string * json)) : string :=
         match l with
         | [] => ""
         | (k, x) :: l' =>
             repr_str k +:+ ": " +:+ py_repr x +:+
             match l' with [] => "" | _ => ", " +:+ go l' end
         end) fields +:+ "}"
  end.

(** [str(v)], which is what an f-string inserts. *)
Definition py_str (v : json) : string :=
  match v with
  | JStr s => s
  | _ => py_repr v
  end.

(** ** Floats *)

(** A Python float: an IEEE binary64 number (53 bits of precision, maximal
    exponent 1024). *)
Definition float : Type := spec_float.

(** The float nearest to an integer (ties to even); an infinity when the
    integer is beyond the range of floats. *)
Definition float_of_Z (n : Z) : float := binary_normalize 53 1024 n 0 false.

(** The float an int operand of a float operation is converted to; None
    when Python raises OverflowError (int too large to convert to float). *)
Definition double_of (n : Z) : option float :=
  match float_of_Z n with
  | S754_infinity _ => None
  | f => Some f
  end.

(** [x + y] and [x - y] on floats. *)
Definition fadd (x y : float) : float := SFadd 53 1024 x y.
Definition fsub (x y : float) : float := SFsub 53 1024 x y.

(** [x >= y] and [x < y] on floats; both are false when one side is nan. *)
Definition fge (x y : float) : bool := SFleb y x.
Definition flt (x y : float) : bool := SFltb x y.

(** [issued + validity - 60], line 79, once the operands are floats. *)
Definition threshold (issued validity : float) : float :=
  fsub (fadd issued validity) (float_of_Z 60).

(** ** The HTTP library, as far as the handler uses it *)

Inductive Method := GET | POST.

Record Request := {
  method : Method;
  url : string;
  body : option json;                 (* the value given to json.dumps *)
  sent_headers : gmap string string   (* the session's headers at send time *)
}.

Record Response := {
  status_code : Z;
  text : string;
  parsed : option json                (* None: the body is not valid JSON *)
}.

(** A [requests.Session]: its header map, and the attribute
    [default_headers] that line 15 of the source assigns (a set holding one
    string, which the library never reads). *)
Record Session := {
  headers : gmap string string;
  default_headers : option (gset string)
}.

(** ** Environment and trace *)

Record Env := {
  urandom : nat -> Byte.byte;                      (* i-th byte of entropy *)
  clock : nat -> float;                            (* i-th reading of time() *)
  transport : nat -> Request -> option Response;   (* answer to the i-th request;
                                                      None: the send raises *)
  fresh_headers : gmap string string               (* headers of requests.Session() *)
}.

Record World := {
  entropy : nat;                                   (* bytes of entropy consumed *)
  reads : nat;                                     (* clock readings taken *)
  exchanges : list (Request * option Response)     (* requests sent, oldest first *)
}.

Definition genesis : World := {| entropy := 0; reads := 0; exchanges := [] |}.

(** ** The object *)

Record APIHandler := {
  session : option Session;
  client_id : option string;
  base_url : option (option string);
  authResult : option json;
  api_key : option (option string);
  username : option (option string);
  password : option (option string);
  data : option json;
  request : option Response;
  token : option json;
  token_expiry : option json;
  token_issue_time : option float;
  toReturn : option json;
  current_time : option float;
  refresh_request : option Response
}.

(** The object [__init__] receives: no attribute assigned. *)
Definition blank : APIHandler :=
  {| session := None; client_id := None; base_url := None; authResult := None;
     api_key := None; username := None; password := None; data := None;
     request := None; token := None; token_expiry := None;
     token_issue_time := None; toReturn := None; current_time := None;
     refresh_request := None |}.

(** Assignments [self.x = v], one per attribute. *)
Definition set_session v (o : APIHandler) : APIHandler :=
  {| session := Some v; client_id := client_id o; base_url := base_url o;
     authResult := authResult o; api_key := api_key o;
     username := username o; password := password o; data := data o;
     request := request o; token := token o; token_expiry := token_expiry o;
     token_issue_time := token_issue_time o; toReturn := toReturn o;
     current_time := current_time o; refresh_request := refresh_request o |}.
Definition set_client_id v (o : APIHandler) : APIHandler :=
  {| session := session o; client_id := Some v; base_url := base_url o;
     authResult := authResult o; api_key := api_key o;
     username := username o; password := password o; data := data o;
     request := request o; token := token o; token_expiry := token_expiry o;
     token_issue_time := token_issue_time o; toReturn := toReturn o;
     current_time := current_time o; refresh_request := refresh_request o |}.
Definition set_base_url v (o : APIHandler) : APIHandler :=
  {| session := session o; client_id := client_id o; base_url := Some v;
     authResult := authResult o; api_key := api_key o;
     username := username o; password := password o; data := data o;
     request := request o; token := token o; token_expiry := token_expiry o;
     token_issue_time := token_issue_time o; toReturn := toReturn o;
     current_time := current_time o; refresh_request := refresh_request o |}.
Definition set_authResult v (o : APIHandler) : APIHandler :=
  {| session := session o; client_id := client_id o; base_url := base_url o;
     authResult := Some v; api_key := api_key o; username := username o;
     password := password o; data := data o; request := request o;
     token := token o; token_expiry := token_expiry o;
     token_issue_time := token_issue_time o; toReturn := toReturn o;
     current_time := current_time o; refresh_request := refresh_request o |}.
Definition set_api_key v (o : APIHandler) : APIHandler :=
  {| session := session o; client_id := client_id o; base_url := base_url o;
     authResult := authResult o; api_key := Some v; username := username o;
     password := password o; data := data o; request := request o;
     token := token o; token_expiry := token_expiry o;
     token_issue_time := token_issue_time o; toReturn := toReturn o;
     current_time := current_time o; refresh_request := refresh_request o |}.
Definition set_username v (o : APIHandler) : APIHandler :=
  {| session := session o; client_id := client_id o; base_url := base_url o;
     authResult := authResult o; api_key := api_key o; username := Some v;
     password := password o; data := data o; request := request o;
     token := token o; token_expiry := token_expiry o;
     token_issue_time := token_issue_time o; toReturn := toReturn o;
     current_time := current_time o; refresh_request := refresh_request o |}.
Definition set_password v (o : APIHandler) : APIHandler :=
  {| session := session o; client_id := client_id o; base_url := base_url o;
     authResult := authResult o; api_key := api_key o;
     username := username o; password := Some v; data := data o;
     request := request o; token := token o; token_expiry := token_expiry o;
     token_issue_time := token_issue_time o; toReturn := toReturn o;
     current_time := current_time o; refresh_request := refresh_request o |}.
Definition set_data v (o : APIHandler) : APIHandler :=
  {| session := session o; client_id := client_id o; base_url := base_url o;
     authResult := authResult o; api_key := api_key o;
     username := username o; password := password o; data := Some v;
     request := request o; token := token o; token_expiry := token_expiry o;
     token_issue_time := token_issue_time o; toReturn := toReturn o;
     current_time := current_time o; refresh_request := refresh_request o |}.
Definition set_request v (o : APIHandler) : APIHandler :=
  {| session := session o; client_id := client_id o; base_url := base_url o;
     authResult := authResult o; api_key := api_key o;
     username := username o; password := password o; data := data o;
     request := Some v; token := token o; token_expiry := token_expiry o;
     token_issue_time := token_issue_time o; toReturn := toReturn o;
     current_time := current_time o; refresh_request := refresh_request o |}.
Definition set_token v (o : APIHandler) : APIHandler :=
  {| session := session o; client_id := client_id o; base_url := base_url o;
     authResult := authResult o; api_key := api_key o;
     username := username o; password := password o; data := data o;
     request := request o; token := Some v; token_expiry := token_expiry o;
     token_issue_time := token_issue_time o; toReturn := toReturn o;
     current_time := current_time o; refresh_request := refresh_request o |}.
Definition set_token_expiry v (o : APIHandler) : APIHandler :=
  {| session := session o; client_id := client_id o; base_url := base_url o;
     authResult := authResult o; api_key := api_key o;
     username := username o; password := password o; data := data o;
     request := request o; token := token o; token_expiry := Some v;
     token_issue_time := token_issue_time o; toReturn := toReturn o;
     current_time := current_time o; refresh_request := refresh_request o |}.
Definition set_token_issue_time v (o : APIHandler) : APIHandler :=
  {| session := session o; client_id := client_id o; base_url := base_url o;
     authResult := authResult o; api_key := api_key o;
     username := username o; password := password o; data := data o;
     request := request o; token := token o; token_expiry := token_expiry o;
     token_issue_time := Some v; toReturn := toReturn o;
     current_time := current_time o; refresh_request := refresh_request o |}.
Definition set_toReturn v (o : APIHandler) : APIHandler :=
  {| session := session o; client_id := client_id o; base_url := base_url o;
     authResult := authResult o; api_key := api_key o;
     username := username o; password := password o; data := data o;
     request := request o; token := token o; token_expiry := token_expiry o;
     token_issue_time := token_issue_time o; toReturn := Some v;
     current_time := current_time o; refresh_request := refresh_request o |}.
Definition set_current_time v (o : APIHandler) : APIHandler :=
  {| session := session o; client_id := client_id o; base_url := base_url o;
     authResult := authResult o; api_key := api_key o;
     username := username o; password := password o; data := data o;
     request := request o; token := token o; token_expiry := token_expiry o;
     token_issue_time := token_issue_time o; toReturn := toReturn o;
     current_time := Some v; refresh_request := refresh_request o |}.
Definition set_refresh_request v (o : APIHandler) : APIHandler :=
  {| session := session o; client_id := client_id o; base_url := base_url o;
     authResult := authResult o; api_key := api_key o;
     username := username o; password := password o; data := data o;
     request := request o; token := token o; token_expiry := token_expiry o;
     token_issue_time := token_issue_time o; toReturn := toReturn o;
     current_time := current_time o; refresh_request := Some v |}.

(** ** Computations: state plus exceptions *)

Inductive exn :=
| ValueError (msg : string)
| Exception (msg : string)
| AttributeError (name : string)
| TypeError
| OverflowError
| JSONDecodeError
| RequestException.

Inductive outcome (A : Type) :=
| Return (a : A)
| Raise (e : exn).
Arguments Return {A} a.
Arguments Raise {A} e.

Record State := { self : APIHandler; world : World }.

Definition M (A : Type) : Type := State -> outcome A * State.

#[global] Instance M_ret : MRet M := fun A a s => (Return a, s).

#[global] Instance M_bind : MBind M := fun A B f m s =>
  match m s with
  | (Return a, s') => f a s'
  | (Raise e, s') => (Raise e, s')
  end.

Definition raise {A} (e : exn) : M A := fun s => (Raise e, s).

(** [self.name], where [field] is the attribute called [name]. *)
Definition getattr {A} (name : string) (field : APIHandler -> option A) : M A :=
  fun s =>
    match field (self s) with
    | Some v => (Return v, s)
    | None => (Raise (AttributeError name), s)
    end.

(** [self.name = v], as one of the assignments above. *)
Definition setattr (assign : APIHandler -> APIHandler) : M unit :=
  fun s => (Return tt, {| self := assign (self s); world := world s |}).

(** [response.json()] *)
Definition json_of (r : Response) : M json :=
  match parsed r with
  | Some v => mret v
  | None => raise JSONDecodeError
  end.

(** [v.get(key)]: only a dict has the method. *)
Definition get (key : string) (v : json) : M json :=
  match v with
  | JObj fields => mret (assoc key fields)
  | _ => raise (AttributeError "get")
  end.

(** The operand [v] of [float + v]: an int or a bool is converted to a
    float, which raises OverflowError for an int out of range; anything
    else is a TypeError. *)
Definition as_float (v : json) : M float :=
  match v with
  | JNum n =>
      match double_of n with
      | Some f => mret f
      | None => raise OverflowError
      end
  | JBool b => mret (float_of_Z (if b then 1 else 0))
  | _ => raise TypeError
  end.

(** [self.session.headers.update({k: v})] *)
Definition headers_update (k v : string) : M unit :=
  sess ← getattr "session" session;
  setattr (set_session {| headers := <[k := v]> (headers sess);
                          default_headers := default_headers sess |}).

(** Line 8.  The constant is defined and never read by the class. *)
Definition default_url : string := "127.0.0.1:8000".

Section Handler.

Context (env : Env).

(** [time()] *)
Definition time : M float := fun s =>
  let w := world s in
  (Return (clock env (reads w)),
   {| self := self s;
      world := {| entropy := entropy w; reads := S (reads w);
                  exchanges := exchanges w |} |}).

(** [os.urandom(n)] *)
Definition os_urandom (n : nat) : M (list Byte.byte) := fun s =>
  let w := world s in
  (Return (List.map (fun i => urandom env (entropy w + i)%nat) (seq 0 n)),
   {| self := self s;
      world := {| entropy := (entropy w + n)%nat; reads := reads w;
                  exchanges := exchanges w |} |}).

(** One request through session [sess]: it is recorded with the answer of
    the transport, and a transport failure raises. *)
Definition send (sess : Session) (m : Method) (u : string) (b : option json)
  : M Response := fun s =>
  let w := world s in
  let q := {| method := m; url := u; body := b;
              sent_headers := headers sess |} in
  let r := transport env (List.length (exchanges w)) q in
  let s' := {| self := self s;
               world := {| entropy := entropy w; reads := reads w;
                           exchanges := exchanges w ++ [(q, r)] |} |} in
  match r with
  | Some resp => (Return resp, s')
  | None => (Raise RequestException, s')
  end.

(** Lines 30-70. *)
Definition _authenticate (username' password' : option string) : M json :=
  setattr (set_username username');;
  setattr (set_password password');;
  u ← getattr "username" username;
  p ← getattr "password" password;
  cid ← getattr "client_id" client_id;
  setattr (set_data (JObj [("username", of_arg u); ("password", of_arg p);
                           ("client_id", JStr ("tics-client-" +:+ cid))]));;
  sess ← getattr "session" session;
  base ← getattr "base_url" base_url;
  d ← getattr "data" data;
  r ← send sess POST (py_str (of_arg base) +:+ "/auth/login") (Some d);
  setattr (set_request r);;
  r ← getattr "request" request;
  if (status_code r =? 200)%Z then
    success ← json_of r ≫= get "success";
    if truthy success then
      tok ← json_of r ≫= get "token";
      setattr (set_token tok);;
      expires ← json_of r ≫= get "expires_in";
      setattr (set_token_expiry expires);;
      now ← time;
      setattr (set_token_issue_time now);;
      tok ← getattr "token" token;
      headers_update "Authorization" ("Bearer " +:+ py_str tok);;
      name ← json_of r ≫= get "username";
      expires ← json_of r ≫= get "expires_in";
      setattr (set_toReturn (JObj [("username", name);
                                   ("timeToExpire", expires)]));;
      getattr "toReturn" toReturn
    else
      raise (Exception "Authentication failed: API returned success=False.")
  else
    raise (Exception ("Authentication failed: " +:+ pretty (status_code r))).

(** Lines 13-28. *)
Definition __init__ (base_url' username' password' api_key' : option string)
  : M unit :=
  setattr (set_session {| headers := fresh_headers env;
                          default_headers := None |});;
  sess ← getattr "session" session;
  setattr (set_session {| headers := headers sess;
                          default_headers :=
                            Some {[ "accept: application/json" ]} |});;
  bs ← os_urandom 6;
  setattr (set_client_id (hex bs));;
  setattr (set_base_url base_url');;
  if truthy (of_arg username') && truthy (of_arg password') then
    result ← _authenticate username' password';
    setattr (set_authResult result)
  else if truthy (of_arg api_key') then
    setattr (set_api_key api_key')
  else if truthy (of_arg username') || truthy (of_arg password') then
    raise (ValueError
      "Both username and password must be provided together for authentication.")
  else
    raise (ValueError
      "No authentication credentials provided. Please provide either username/password or an API key.").

(** Lines 72-100. *)
Definition refresh_token : M unit :=
  now ← time;
  setattr (set_current_time now);;
  cur ← getattr "current_time" current_time;
  issued ← getattr "token_issue_time" token_issue_time;
  validity ← getattr "token_expiry" token_expiry ≫= as_float;
  if fge cur (threshold issued validity) then
    sess ← getattr "session" session;
    base ← getattr "base_url" base_url;
    cid ← getattr "client_id" client_id;
    r ← send sess POST (py_str (of_arg base) +:+ "/auth/refresh")
           (Some (JObj [("client_id", JStr ("tics-client-" +:+ cid))]));
    setattr (set_refresh_request r);;
    r ← getattr "refresh_request" refresh_request;
    if (status_code r =? 200)%Z then
      success ← json_of r ≫= get "success";
      if truthy success then
        tok ← json_of r ≫= get "token";
        setattr (set_token tok);;
        expires ← json_of r ≫= get "expires_in";
        setattr (set_token_expiry expires);;
        now ← time;
        setattr (set_token_issue_time now);;
        tok ← getattr "token" token;
        headers_update "Authorization" ("Bearer " +:+ py_str tok)
      else
        mret tt
    else
      raise (Exception ("Token refresh failed: " +:+ pretty (status_code r)))
  else
    mret tt.

(** Lines 102-106. *)
Definition get_data (endpoint : string) : M json :=
  base ← getattr "base_url" base_url;
  sess ← getattr "session" session;
  r ← send sess GET (py_str (of_arg base) +:+ "/api/" +:+ endpoint) None;
  setattr (set_request r);;
  r ← getattr "request" request;
  json_of r.

(** [APIHandler(base_url, username, password, api_key)] evaluated in
    world [w]: the object when [__init__] returns, else its exception. *)
Definition new (base_url' username' password' api_key' : option string)
    (w : World) : outcome APIHandler * World :=
  match __init__ base_url' username' password' api_key'
          {| self := blank; world := w |} with
  | (Return _, s) => (Return (self s), world s)
  | (Raise e, s) => (Raise e, world s)
  end.

End Handler.

(** ** What the properties speak about *)

(** The [Authorization] header the session sends, if any. *)
Definition authorization (o : APIHandler) : option string :=
  match session o with
  | Some sess => headers sess !! "Authorization"
  | None => None
  end.

(** [needle] occurs in [hay]: an exception built from an f-string carries a
    value when the value's text occurs in its message. *)
Fixpoint starts_with (p s : string) : bool :=
  match p, s with
  | EmptyString, _ => true
  | String a p', String b s' => Ascii.eqb a b && starts_with p' s'
  | String _ _, EmptyString => false
  end.

Fixpoint mentions (needle hay : string) : bool :=
  starts_with needle hay ||
  match hay with
  | EmptyString => false
  | String _ rest => mentions needle rest
  end.

(** The login request [_authenticate] builds for an object whose session,
    client id and base URL are [sess], [cid] and [base]. *)
Definition login_request (sess : Session) (cid : string) (base : option string)
    (username' password' : option string) : Request :=
  {| method := POST;
     url := py_str (of_arg base) +:+ "/auth/login";
     body := Some (JObj [("username", of_arg username');
                         ("password", of_arg password');
                         ("client_id", JStr ("tics-client-" +:+ cid))]);
     sent_headers := headers sess |}.

(** The refresh request of [refresh_token]. *)
Definition refresh_request_of (sess : Session) (cid : string)
    (base : option string) : Request :=
  {| method := POST;
     url := py_str (of_arg base) +:+ "/auth/refresh";
     body := Some (JObj [("client_id", JStr ("tics-client-" +:+ cid))]);
     sent_headers := headers sess |}.

(** The four attributes the bookkeeping consists of. *)
Definition tracked (o : APIHandler)
    : option json * option json * option float * option string :=
  (token o, token_expiry o, token_issue_time o, authorization o).

(** The step from [s] to [s'] installed a token, in one piece: one request
    was answered in the step, and the token and the expiry are the [token]
    and [expires_in] fields of that answer (None for a field the answer does
    not have), the issue time is the last clock reading the step took, and
    the [Authorization] header is built from that token. *)
Definition installs (env : Env) (s s' : State) : Prop :=
  exists q resp fields,
    exchanges (world s') = exchanges (world s) ++ [(q, Some resp)] /\
    parsed resp = Some (JObj fields) /\
    token (self s') = Some (assoc "token" fields) /\
    token_expiry (self s') = Some (assoc "expires_in" fields) /\
    (reads (world s) < reads (world s'))%nat /\
    token_issue_time (self s')
    = Some (clock env (Nat.pred (reads (world s')))) /\
    authorization (self s')
    = Some ("Bearer " +:+ py_str (assoc "token" fields)).

(** All or nothing: a step leaves the four attributes as they were, or
    installs all four together. *)
Definition set_together (env : Env) (s s' : State) : Prop :=
  tracked (self s') = tracked (self s) \/ installs env s s'.

(** The states a program can bring a handler to: it constructs the object,
    then calls its methods in any order; a call that raises still leaves the
    object as it was when the exception left the method. *)
Inductive reachable (env : Env) : State -> Prop :=
| reach_new b u p k w o w' :
    new env b u p k w = (Return o, w') ->
    reachable env {| self := o; world := w' |}
| reach_authenticate s u p :
    reachable env s -> reachable env (snd (_authenticate env u p s))
| reach_refresh_token s :
    reachable env s -> reachable env (snd (refresh_token env s))
| reach_get_data s endpoint :
    reachable env s -> reachable env (snd (get_data env endpoint s)).

(** One step of a program: the construction of the object, or one method
    call on a state the program has reached. *)
Inductive step (env : Env) : State -> State -> Prop :=
| step_new b u p k w o w' :
    new env b u p k w = (Return o, w') ->
    step env {| self := blank; world := w |} {| self := o; world := w' |}
| step_authenticate s u p :
    reachable env s -> step env s (snd (_authenticate env u p s))
| step_refresh_token s :
    reachable env s -> step env s (snd (refresh_token env s))
| step_get_data s endpoint :
    reachable env s -> step env s (snd (get_data env endpoint s)).

(** The program went from [s1] to [s] by steps that each left the four
    attributes as they were. *)
Inductive untouched (env : Env) : State -> State -> Prop :=
| untouched_here s : untouched env s s
| untouched_step s1 s s' :
    untouched env s1 s -> step env s s' ->
    tracked (self s') = tracked (self s) ->
    untouched env s1 s'.

(** The state a stored token is found in: one step of the program installed
    token, expiry, issue time and [Authorization] header together, and no
    step since has touched any of the four. *)
Definition consistent (env : Env) (s : State) : Prop :=
  forall tok, token (self s) = Some tok ->
    exists s0 s1,
      step env s0 s1 /\ installs env s0 s1 /\ untouched env s1 s.

(** [get_data] called for each endpoint of a list, whatever each call
    returns or raises. *)
Fixpoint fetch_all (env : Env) (endpoints : list string) (s : State) : State :=
  match endpoints with
  | [] => s
  | e :: rest => fetch_all env rest (snd (get_data env e s))
  end.

(** ** Sample environments *)

(** Headers of a fresh session of requests 2.31. *)
Definition stock_headers : gmap string string :=
  {[ "User-Agent" := "python-requests/2.31.0";
     "Accept-Encoding" := "gzip, deflate";
     "Accept" := "*/*";
     "Connection" := "keep-alive" ]}.

(** An environment that follows a script: the clock shows [times] (whole
    seconds) in turn (then stays at 0), the server gives [answers] in turn
    (then the connection fails). *)
Definition scripted (times : list Z) (answers : list (option Response)) : Env :=
  {| urandom := fun _ => Byte.xa7;
     clock := fun i => float_of_Z (nth i times 0);
     transport := fun i _ => nth i answers None;
     fresh_headers := stock_headers |}.

Definition granted (tok : string) (seconds : Z) : Response :=
  {| status_code := 200;
     text := "(token grant)";
     parsed := Some (JObj [("success", JBool true); ("token", JStr tok);
                           ("expires_in", JNum seconds);
                           ("username", JStr "emma")]) |}.

Definition declined : Response :=
  {| status_code := 200;
     text := "(declined)";
     parsed := Some (JObj [("success", JBool false)]) |}.

Definition broken (code : Z) : Response :=
  {| status_code := code; text := "boom"; parsed := None |}.

Definition widgets : Response :=
  {| status_code := 200;
     text := "[1, 2]";
     parsed := Some (JArr [JNum 1; JNum 2]) |}.

(** A client logged in at time 1000 with a token valid for 3600 seconds;
    [times] and [answers] script what follows the login. *)
Definition logged_in (times : list Z) (answers : list (option Response))
    : outcome APIHandler * World :=
  new (scripted (1000 :: times) (Some (granted "t0" 3600) :: answers))
      (Some "http://127.0.0.1:8000") (Some "emma") (Some "pw") None genesis.

(** A client built from an API key alone. *)
Definition keyed (base : option string) (answers : list (option Response))
    : outcome APIHandler * World :=
  new (scripted [] answers) base None None (Some "key-1") genesis.

(** The state in which a method of a constructed object is called. *)
Definition state_of (built : outcome APIHandler * World) : State :=
  match built with
  | (Return o, w) => {| self := o; world := w |}
  | (Raise _, w) => {| self := blank; world := w |}
  end.

(** ** What the further properties speak about *)

(** A character of 0-9 or a-f. *)
Definition is_hex (c : ascii) : bool := contains c "0123456789abcdef".

(** The six bytes [os.urandom(6)] yields in world [w]. *)
Definition entropy_bytes (env : Env) (w : World) : list Byte.byte :=
  List.map (fun i => urandom env (entropy w + i)%nat) (seq 0 6).

(** The session as [__init__] leaves it before it looks at the identity. *)
Definition fresh_session (env : Env) : Session :=
  {| headers := fresh_headers env;
     default_headers := Some {[ "accept: application/json" ]} |}.

(** The request [get_data] builds. *)
Definition data_request (sess : Session) (base : option string)
    (endpoint : string) : Request :=
  {| method := GET;
     url := py_str (of_arg base) +:+ "/api/" +:+ endpoint;
     body := None;
     sent_headers := headers sess |}.

(** What construction fixes for the life of the object: a session, a base
    URL (possibly None) and a client id of twelve hex characters. *)
Definition constructed (o : APIHandler) : Prop :=
  is_Some (session o) /\
  is_Some (base_url o) /\
  exists cid,
    client_id o = Some cid /\
    String.length cid = 12%nat /\
    Forall (fun c => is_hex c = true) (list_ascii_of_string cid).

(** The token bookkeeping of an object, as one value. *)
Definition bookkeeping (o : APIHandler)
    : option json * option json * option float * option Session :=
  (token o, token_expiry o, token_issue_time o, session o).

(** * Properties *)

(** Symbolic execution of the methods: unfold the monad and the attribute
    accesses, leaving arithmetic, strings and header maps alone. *)
Ltac run :=
  cbv [new __init__ _authenticate refresh_token get_data headers_update
       getattr setattr raise time os_urandom send json_of get as_float
       mbind mret M_bind M_ret];
  cbn [self world session client_id base_url authResult api_key username
       password data request token token_expiry token_issue_time toReturn
       current_time refresh_request entropy reads exchanges headers
       default_headers fst snd
       set_session set_client_id set_base_url set_authResult set_api_key
       set_username set_password set_data set_request set_token
       set_token_expiry set_token_issue_time set_toReturn set_current_time
       set_refresh_request blank].

(** One step: settle the first test whose subject is known or can be split
    into cases, then execute again. *)
Ltac settle :=
  match goal with
  | H : ?x = _ |- context [match ?x with _ => _ end] => rewrite H
  | |- context [match ?x with _ => _ end] =>
      lazymatch x with
      | match _ with _ => _ end => fail
      | (match _ with _ => _ end) _ => fail
      | _ => destruct x eqn:?
      end
  end.

Ltac exec := run; repeat (settle; run).

Example py_str_samples :
  py_str (JStr "abc") = "abc" /\ py_str JNull = "None" /\
  py_str (JNum 3600) = "3600" /\
  py_str (JObj [("a", JArr [JBool true; JStr "x"]); ("b", JNum (-1))])
  = "{'a': [True, 'x'], 'b': -1}".
Proof. repeat split; reflexivity. Qed.

(** The client id is twelve characters long. *)
Lemma hex_length bs : String.length (hex bs) = (2 * List.length bs)%nat.
Proof. induction bs as [|b bs IH]; simpl; lia. Qed.

Lemma starts_with_refl p : starts_with p p = true.
Proof.
  induction p as [|c p IH]; [reflexivity|].
  cbn [starts_with]. rewrite Ascii.eqb_refl. exact IH.
Qed.

(** The text put last into a message occurs in it. *)
Lemma mentions_tail pre n : mentions n (pre +:+ n) = true.
Proof.
  induction pre as [|c pre IH].
  - change (EmptyString +:+ n) with n.
    destruct n as [|c n]; [reflexivity|].
    cbn [mentions]. rewrite starts_with_refl. reflexivity.
  - change (String c pre +:+ n) with (String c (pre +:+ n)).
    cbn [mentions]. rewrite IH. apply orb_true_r.
Qed.

(** ** Construction *)

(** C1 as stated fails on the code: with a username, a password and an API
    key all supplied, the constructor raises nothing; it logs in with the
    credentials, so one request has been sent when it returns. *)
Lemma both_identities_log_in :
  let built :=
    new (scripted [1000] [Some (granted "t0" 3600)])
        (Some "http://127.0.0.1:8000") (Some "emma") (Some "pw")
        (Some "key-1") genesis in
  (exists o, fst built = Return o /\ token o = Some (JStr "t0")) /\
  List.length (exchanges (snd built)) = 1%nat /\
  ~ (exists msg w, built = (Raise (ValueError msg), w) /\ exchanges w = []).
Proof.
  vm_compute. split; [|split].
  - eexists. split; reflexivity.
  - reflexivity.
  - intros (msg & w & H & _). discriminate H.
Qed.

(** C1, amended.  The identity check of [__init__]: when the credential
    pair is incomplete and no API key is given, the constructor raises
    ValueError (the configuration error of the specification) and no
    request has been sent; when username and password are both given they
    take precedence, and an API key given with them makes no difference. *)
Theorem init_identity_check env b u p k w :
  (truthy (of_arg u) && truthy (of_arg p) = false ->
   truthy (of_arg k) = false ->
   exists msg w',
     new env b u p k w = (Raise (ValueError msg), w') /\
     exchanges w' = exchanges w) /\
  (truthy (of_arg u) && truthy (of_arg p) = true ->
   new env b u p k w = new env b u p None w).
Proof.
  split.
  - intros Hc Hk. run. rewrite Hc, Hk.
    destruct (truthy (of_arg u) || truthy (of_arg p)); eauto.
  - intros Hc. run. rewrite Hc. reflexivity.
Qed.

(** Both halves at work: no argument at all, and all three identity arguments
    against a server that grants the login. *)
Lemma init_identity_check_witness :
  (exists msg w',
     new (scripted [] []) None None None None genesis
     = (Raise (ValueError msg), w') /\ exchanges w' = exchanges genesis) /\
  new (scripted [1000] [Some (granted "t0" 3600)]) None (Some "emma")
      (Some "pw") (Some "key-1") genesis
  = new (scripted [1000] [Some (granted "t0" 3600)]) None (Some "emma")
        (Some "pw") None genesis.
Proof.
  split.
  - apply (init_identity_check (scripted [] []) None None None None genesis);
      reflexivity.
  - apply (init_identity_check (scripted [1000] [Some (granted "t0" 3600)])
             None (Some "emma") (Some "pw") (Some "key-1") genesis);
      reflexivity.
Defined.

(** [get_data] does not touch the session. *)
Lemma get_data_session env e s :
  session (self (snd (get_data env e s))) = session (self s).
Proof. exec; congruence. Qed.

(** The requests [get_data] adds carry the session's headers. *)
Lemma get_data_exchanges env e s sess q r :
  session (self s) = Some sess ->
  In (q, r) (exchanges (world (snd (get_data env e s)))) ->
  In (q, r) (exchanges (world s)) \/ sent_headers q = headers sess.
Proof.
  intros Hs. exec; auto;
    rewrite in_app_iff; cbn [In]; intros [H|[H|[]]]; auto;
    inversion H; auto.
Qed.

Lemma fetch_all_headers env endpoints : forall s sess q r,
  session (self s) = Some sess ->
  In (q, r) (exchanges (world (fetch_all env endpoints s))) ->
  In (q, r) (exchanges (world s)) \/ sent_headers q = headers sess.
Proof.
  induction endpoints as [|e rest IH]; intros s sess q r Hs Hin; [auto|].
  cbn [fetch_all] in Hin.
  apply (IH _ sess) in Hin; [|rewrite get_data_session; exact Hs].
  destruct Hin as [Hin|Hin]; [|auto].
  eapply get_data_exchanges; eauto.
Qed.

(** C2 as stated fails on the code: a client built from the key [key-1]
    sends its data request without any [Authorization] header. *)
Lemma keyed_request_has_no_bearer :
  let env := scripted [] [Some widgets] in
  let s := snd (get_data env "widgets"
                  (state_of (keyed (Some "http://127.0.0.1:8000")
                                   [Some widgets]))) in
  List.map (fun x => sent_headers (fst x) !! "Authorization")
           (exchanges (world s)) = [None] /\
  ~ (forall q r, In (q, r) (exchanges (world s)) ->
                 sent_headers q !! "Authorization" = Some "Bearer key-1").
Proof.
  vm_compute. split; [reflexivity|].
  intros H.
  specialize (H _ _ (or_introl eq_refl)). vm_compute in H. discriminate H.
Qed.

(** C2, amended.  For a key identity the constructor stores the key and
    sends nothing; it installs no header: the session keeps the headers of
    a fresh session, no token is stored, and those fresh headers are what
    every following [get_data] request carries. *)
Theorem key_identity_construction env b u p k w :
  truthy (of_arg u) && truthy (of_arg p) = false ->
  truthy (of_arg k) = true ->
  exists o w',
    new env b u p k w = (Return o, w') /\
    api_key o = Some k /\
    exchanges w' = exchanges w /\
    token o = None /\
    (headers <$> session o) = Some (fresh_headers env) /\
    forall endpoints q r,
      In (q, r) (exchanges (world (fetch_all env endpoints
                                     {| self := o; world := w' |}))) ->
      In (q, r) (exchanges w) \/ sent_headers q = fresh_headers env.
Proof.
  intros Hc Hk. run. rewrite Hc, Hk.
  eexists. eexists. split; [reflexivity|].
  cbn [api_key exchanges token session fmap option_fmap option_map headers].
  repeat split.
  intros endpoints q r Hin.
  eapply fetch_all_headers in Hin; [|reflexivity]. exact Hin.
Qed.

(** A client built from the key [key-1] alone. *)
Lemma key_identity_construction_witness :
  exists o w',
    new (scripted [] [Some widgets]) None None None (Some "key-1") genesis
    = (Return o, w') /\
    api_key o = Some (Some "key-1") /\
    exchanges w' = exchanges genesis /\
    token o = None /\
    (headers <$> session o) = Some stock_headers /\
    forall endpoints q r,
      In (q, r) (exchanges (world (fetch_all (scripted [] [Some widgets])
                                     endpoints
                                     {| self := o; world := w' |}))) ->
      In (q, r) (exchanges genesis) \/ sent_headers q = stock_headers.
Proof.
  apply (key_identity_construction (scripted [] [Some widgets])
           None None None (Some "key-1") genesis); reflexivity.
Defined.

(** ** Login *)

Lemma status_is_200 (r : Response) :
  status_code r = 200 -> (status_code r =? 200)%Z = true.
Proof. intros ->. reflexivity. Qed.

Lemma status_not_200 (r : Response) :
  status_code r <> 200 -> (status_code r =? 200)%Z = false.
Proof. intros H. apply Z.eqb_neq. exact H. Qed.

(** C3.  A login answered with status 200 and a true [success] field: the
    token and the expiry are those of the response, the issue time is the
    clock reading taken during the call, the session sends
    [Authorization: Bearer token], exactly the login request was sent, and
    the call returns the response's username and expiry. *)
Theorem authenticate_success env s u p sess cid base resp fields :
  session (self s) = Some sess ->
  client_id (self s) = Some cid ->
  base_url (self s) = Some base ->
  transport env (List.length (exchanges (world s)))
            (login_request sess cid base u p) = Some resp ->
  status_code resp = 200 ->
  parsed resp = Some (JObj fields) ->
  truthy (assoc "success" fields) = true ->
  exists s',
    _authenticate env u p s
    = (Return (JObj [("username", assoc "username" fields);
                     ("timeToExpire", assoc "expires_in" fields)]), s') /\
    token (self s') = Some (assoc "token" fields) /\
    token_issue_time (self s') = Some (clock env (reads (world s))) /\
    reads (world s') = S (reads (world s)) /\
    token_expiry (self s') = Some (assoc "expires_in" fields) /\
    authorization (self s')
    = Some ("Bearer " +:+ py_str (assoc "token" fields)) /\
    exchanges (world s')
    = exchanges (world s) ++ [(login_request sess cid base u p, Some resp)].
Proof.
  intros Hsess Hcid Hbase Hsend Hcode%status_is_200 Hbody Hsucc.
  unfold login_request in *. exec.
  eexists. split; [reflexivity|].
  unfold authorization. run.
  rewrite lookup_insert_eq. repeat split.
Qed.

(** A login granted at clock reading 1000 for 3600 seconds. *)
Lemma authenticate_success_witness :
  exists s',
    _authenticate (scripted [1000] [Some (granted "t0" 3600)])
      (Some "emma") (Some "pw")
      (state_of (keyed (Some "http://127.0.0.1:8000") []))
    = (Return (JObj [("username", JStr "emma");
                     ("timeToExpire", JNum 3600)]), s') /\
    token (self s') = Some (JStr "t0") /\
    token_issue_time (self s') = Some (float_of_Z 1000) /\
    reads (world s') = 1%nat /\
    token_expiry (self s') = Some (JNum 3600) /\
    authorization (self s') = Some "Bearer t0" /\
    List.length (exchanges (world s')) = 1%nat.
Proof.
  destruct (authenticate_success
              (scripted [1000] [Some (granted "t0" 3600)])
              (state_of (keyed (Some "http://127.0.0.1:8000") []))
              (Some "emma") (Some "pw")
              {| headers := stock_headers;
                 default_headers := Some {[ "accept: application/json" ]} |}
              "a7a7a7a7a7a7" (Some "http://127.0.0.1:8000")
              (granted "t0" 3600)
              [("success", JBool true); ("token", JStr "t0");
               ("expires_in", JNum 3600); ("username", JStr "emma")]
              eq_refl eq_refl eq_refl eq_refl eq_refl eq_refl eq_refl)
    as (s' & Hrun & Htok & Htime & Hreads & Hexp & Hauth & Hsent).
  exists s'. repeat split; try assumption.
  rewrite Hsent. reflexivity.
Defined.

(** C4 as stated fails on the code: after a login answered with status
    500 and text [boom], the exception names the status code and nothing of
    the response text. *)
Lemma login_error_omits_response_text :
  let built :=
    new (scripted [] [Some (broken 500)]) (Some "http://127.0.0.1:8000")
        (Some "emma") (Some "pw") None genesis in
  fst built = Raise (Exception "Authentication failed: 500") /\
  ~ (exists msg, fst built = Raise (Exception msg) /\
                 mentions "500" msg = true /\ mentions "boom" msg = true).
Proof.
  vm_compute. split; [reflexivity|].
  intros (msg & Hmsg & _ & Htext).
  injection Hmsg as <-. vm_compute in Htext. discriminate Htext.
Qed.

(** C4, amended.  A login answered with a status other than 200, or with
    status 200 and a false [success] field, raises: the message carries the
    status code in the first case (the response text is not in it) and is
    the fixed success=False message in the second.  Token, expiry, issue
    time and session are as before the call, so a client that held no token
    holds none. *)
Theorem authenticate_failure env s u p sess cid base resp :
  session (self s) = Some sess ->
  client_id (self s) = Some cid ->
  base_url (self s) = Some base ->
  transport env (List.length (exchanges (world s)))
            (login_request sess cid base u p) = Some resp ->
  (status_code resp <> 200 \/
   exists fields, parsed resp = Some (JObj fields) /\
                  truthy (assoc "success" fields) = false) ->
  exists msg s',
    _authenticate env u p s = (Raise (Exception msg), s') /\
    (status_code resp <> 200 ->
     msg = "Authentication failed: " +:+ pretty (status_code resp) /\
     mentions (pretty (status_code resp)) msg = true) /\
    (status_code resp = 200 ->
     msg = "Authentication failed: API returned success=False.") /\
    token (self s') = token (self s) /\
    token_expiry (self s') = token_expiry (self s) /\
    token_issue_time (self s') = token_issue_time (self s) /\
    session (self s') = session (self s) /\
    (token (self s) = None -> token (self s') = None).
Proof.
  intros Hsess Hcid Hbase Hsend Hfail.
  unfold login_request in *.
  destruct (Z.eq_dec (status_code resp) 200) as [Hcode|Hcode].
  - destruct Hfail as [Hne|(fields & Hbody & Hsucc)]; [contradiction|].
    pose proof (status_is_200 _ Hcode) as Hc. exec.
    eexists. eexists. split; [reflexivity|].
    run. repeat split; congruence.
  - pose proof (status_not_200 _ Hcode) as Hc. exec.
    eexists. eexists. split; [reflexivity|].
    run. repeat split; try congruence. apply mentions_tail.
Qed.

(** A login answered with status 500 on an object holding no token. *)
Lemma authenticate_failure_witness :
  exists msg s',
    _authenticate (scripted [] [Some (broken 500)]) (Some "emma") (Some "pw")
      (state_of (keyed (Some "http://127.0.0.1:8000") []))
    = (Raise (Exception msg), s') /\
    msg = "Authentication failed: 500" /\
    token (self s') = None.
Proof.
  assert (status_code (broken 500) <> 200) as Hne by discriminate.
  pose proof (authenticate_failure
                (scripted [] [Some (broken 500)])
                (state_of (keyed (Some "http://127.0.0.1:8000") []))
                (Some "emma") (Some "pw")
                {| headers := stock_headers;
                   default_headers := Some {[ "accept: application/json" ]} |}
                "a7a7a7a7a7a7" (Some "http://127.0.0.1:8000")
                (broken 500)) as H.
  do 4 specialize (H eq_refl).
  destruct (H (or_introl Hne)) as (msg & s' & Hrun & Hcode & _ & Htok & _).
  exists msg, s'. split; [exact Hrun|]. split.
  - destruct (Hcode Hne) as [-> _]. vm_compute. reflexivity.
  - rewrite Htok. reflexivity.
Defined.

(** ** Refresh *)

(** On floats as on numbers, [x < y] excludes [x >= y]. *)
Lemma flt_not_fge x y : flt x y = true -> fge x y = false.
Proof.
  unfold flt, fge, SFltb, SFleb.
  destruct x as [sx|sx| |sx mx ex], y as [sy|sy| |sy my ey];
    cbn [SFcompare]; try discriminate;
    try (destruct sx; try destruct sy; (discriminate || reflexivity)).
  rewrite (Z.compare_antisym ex ey).
  replace (Pos.compare_cont Eq my mx)
    with (CompOpp (Pos.compare_cont Eq mx my))
    by (rewrite Pos.compare_cont_antisym; reflexivity).
  destruct sx, sy; try discriminate; try reflexivity;
    destruct (ex ?= ey)%Z; cbn [CompOpp]; try discriminate; try reflexivity;
    destruct (Pos.compare_cont Eq mx my); cbn [CompOpp];
    discriminate || reflexivity.
Qed.

(** C5 as stated, with the comparison taken in exact arithmetic, fails on
    the code, because line 79 adds the int expiry to a float.  First, a
    token granted at time 1000 for 10^400 seconds: at time 2000 the clock
    is below issue time + expiry - 60, yet the call does not return: the
    conversion of the expiry raises OverflowError (nothing is sent).
    Second, a token granted at time 0 for 2^53 + 1 seconds: the expiry is
    rounded to 2^53, so at time 2^53 - 60, one second before issue time +
    expiry - 60, the refresh request is sent. *)
Lemma refresh_test_is_not_exact :
  let url_of := fun x : Request * option Response => url (fst x) in
  (let env := scripted [1000; 2000] [Some (granted "t0" (10 ^ 400))] in
   let s := state_of (new env (Some "http://127.0.0.1:8000") (Some "emma")
                        (Some "pw") None genesis) in
   token (self s) = Some (JStr "t0") /\
   token_issue_time (self s) = Some (float_of_Z 1000) /\
   token_expiry (self s) = Some (JNum (10 ^ 400)) /\
   clock env (reads (world s)) = float_of_Z 2000 /\
   (2000 < 1000 + 10 ^ 400 - 60)%Z /\
   fst (refresh_token env s) = Raise OverflowError /\
   exchanges (world (snd (refresh_token env s))) = exchanges (world s)) /\
  (let env := scripted [0; 2 ^ 53 - 60]
                [Some (granted "t0" (2 ^ 53 + 1)); Some (granted "t1" 3600)] in
   let s := state_of (new env (Some "http://127.0.0.1:8000") (Some "emma")
                        (Some "pw") None genesis) in
   token (self s) = Some (JStr "t0") /\
   token_issue_time (self s) = Some (float_of_Z 0) /\
   token_expiry (self s) = Some (JNum (2 ^ 53 + 1)) /\
   clock env (reads (world s)) = float_of_Z (2 ^ 53 - 60) /\
   (2 ^ 53 - 60 < 0 + (2 ^ 53 + 1) - 60)%Z /\
   List.map url_of (exchanges (world s))
   = ["http://127.0.0.1:8000/auth/login"] /\
   List.map url_of (exchanges (world (snd (refresh_token env s))))
   = ["http://127.0.0.1:8000/auth/login";
      "http://127.0.0.1:8000/auth/refresh"]).
Proof. cbv zeta. vm_compute. repeat split; reflexivity. Qed.

(** C5, amended.  The refresh policy, for a client whose issue time and int
    expiry are stored, the expiry being within the range of floats and the
    comparison being the one line 79 makes on floats (the expiry converted
    to a float, sum and difference rounded): when the clock reads less than
    issue time + expiry - 60 the call returns at once and nothing is sent;
    when it reads at least that, exactly one request is added, the POST to
    base_url/auth/refresh whose body is the client id. *)
Theorem refresh_policy env s sess cid base issued seconds validity :
  session (self s) = Some sess ->
  client_id (self s) = Some cid ->
  base_url (self s) = Some base ->
  token_issue_time (self s) = Some issued ->
  token_expiry (self s) = Some (JNum seconds) ->
  double_of seconds = Some validity ->
  (flt (clock env (reads (world s))) (threshold issued validity) = true ->
   exists s',
     refresh_token env s = (Return tt, s') /\
     exchanges (world s') = exchanges (world s)) /\
  (fge (clock env (reads (world s))) (threshold issued validity) = true ->
   exists answer,
     exchanges (world (snd (refresh_token env s)))
     = exchanges (world s) ++ [(refresh_request_of sess cid base, answer)]).
Proof.
  intros Hsess Hcid Hbase Hissued Hexpiry Hfloat.
  unfold refresh_request_of. split.
  - intros Hfresh%flt_not_fge. exec. eexists. split; reflexivity.
  - intros Hstale. exec; eexists; reflexivity.
Qed.

(** A token issued at 1000 for 3600 seconds: at 2000 nothing is sent, at 4540
    (the threshold itself) the refresh request goes out. *)
Lemma refresh_policy_witness :
  (exists s',
     refresh_token (scripted [1000; 2000] [Some (granted "t0" 3600)])
                   (state_of (logged_in [2000] []))
     = (Return tt, s') /\
     List.length (exchanges (world s')) = 1%nat) /\
  (exists q answer,
     exchanges (world (snd (refresh_token
                              (scripted [1000; 4540]
                                 [Some (granted "t0" 3600);
                                  Some (granted "t1" 3600)])
                              (state_of (logged_in [4540]
                                           [Some (granted "t1" 3600)])))))
     = exchanges (world (state_of (logged_in [4540]
                                     [Some (granted "t1" 3600)])))
       ++ [(q, answer)] /\
     method q = POST /\
     url q = "http://127.0.0.1:8000/auth/refresh" /\
     body q = Some (JObj [("client_id", JStr "tics-client-a7a7a7a7a7a7")])).
Proof.
  split.
  - pose proof (refresh_policy
                  (scripted [1000; 2000] [Some (granted "t0" 3600)])
                  (state_of (logged_in [2000] []))
                  {| headers := <["Authorization" := "Bearer t0"]> stock_headers;
                     default_headers :=
                       Some {[ "accept: application/json" ]} |}
                  "a7a7a7a7a7a7" (Some "http://127.0.0.1:8000")
                  (float_of_Z 1000) 3600 (float_of_Z 3600)) as H.
    do 6 specialize (H eq_refl). destruct H as [H _].
    destruct H as (s' & Hrun & Hsent); [vm_compute; reflexivity|].
    exists s'. split; [exact Hrun|]. rewrite Hsent. reflexivity.
  - pose proof (refresh_policy
                  (scripted [1000; 4540]
                     [Some (granted "t0" 3600); Some (granted "t1" 3600)])
                  (state_of (logged_in [4540] [Some (granted "t1" 3600)]))
                  {| headers := <["Authorization" := "Bearer t0"]> stock_headers;
                     default_headers :=
                       Some {[ "accept: application/json" ]} |}
                  "a7a7a7a7a7a7" (Some "http://127.0.0.1:8000")
                  (float_of_Z 1000) 3600 (float_of_Z 3600)) as H.
    do 6 specialize (H eq_refl). destruct H as [_ H].
    destruct H as (answer & Hsent); [vm_compute; reflexivity|].
    eexists. exists answer. split; [exact Hsent|].
    repeat split; reflexivity.
Defined.

(** C6.  A refresh request (sent because the test of line 79, made on
    floats, finds the refresh due) answered with status 200 and a false
    [success] field: the call raises nothing, and token, issue time, expiry
    and the session with its [Authorization] header are what they were
    before the call. *)
Theorem refresh_soft_failure env s sess cid base issued seconds validity resp fields :
  session (self s) = Some sess ->
  client_id (self s) = Some cid ->
  base_url (self s) = Some base ->
  token_issue_time (self s) = Some issued ->
  token_expiry (self s) = Some (JNum seconds) ->
  double_of seconds = Some validity ->
  fge (clock env (reads (world s))) (threshold issued validity) = true ->
  transport env (List.length (exchanges (world s)))
            (refresh_request_of sess cid base) = Some resp ->
  status_code resp = 200 ->
  parsed resp = Some (JObj fields) ->
  truthy (assoc "success" fields) = false ->
  exists s',
    refresh_token env s = (Return tt, s') /\
    token (self s') = token (self s) /\
    token_issue_time (self s') = token_issue_time (self s) /\
    token_expiry (self s') = token_expiry (self s) /\
    session (self s') = session (self s) /\
    authorization (self s') = authorization (self s).
Proof.
  intros Hsess Hcid Hbase Hissued Hexpiry Hfloat Hstale Hsend
         Hcode%status_is_200 Hbody Hsucc.
  unfold refresh_request_of in *. exec.
  eexists. split; [reflexivity|].
  unfold authorization. run. repeat split; congruence.
Qed.

(** At the threshold, the server declines the refresh: the token [t0] stays. *)
Lemma refresh_soft_failure_witness :
  exists s',
    refresh_token (scripted [1000; 4540] [Some (granted "t0" 3600); Some declined])
                  (state_of (logged_in [4540] [Some declined]))
    = (Return tt, s') /\
    token (self s') = Some (JStr "t0") /\
    token_issue_time (self s') = Some (float_of_Z 1000) /\
    token_expiry (self s') = Some (JNum 3600) /\
    authorization (self s') = Some "Bearer t0".
Proof.
  pose proof (refresh_soft_failure
                (scripted [1000; 4540] [Some (granted "t0" 3600); Some declined])
                (state_of (logged_in [4540] [Some declined]))
                {| headers := <["Authorization" := "Bearer t0"]> stock_headers;
                   default_headers := Some {[ "accept: application/json" ]} |}
                "a7a7a7a7a7a7" (Some "http://127.0.0.1:8000")
                (float_of_Z 1000) 3600 (float_of_Z 3600)
                declined [("success", JBool false)]) as H.
  do 6 specialize (H eq_refl).
  destruct H as (s' & Hrun & Htok & Hissued & Hexpiry & _ & Hauth);
    [vm_compute; reflexivity | reflexivity .. |].
  exists s'. split; [exact Hrun|].
  rewrite Htok, Hissued, Hexpiry, Hauth. repeat split; reflexivity.
Defined.

(** C7.  A refresh request (sent because the test of line 79, made on
    floats, finds the refresh due) answered with a status other than 200:
    the call raises the refresh error, whose message carries the status
    code, and token, issue time, expiry and the session with its
    [Authorization] header are what they were before the call. *)
Theorem refresh_http_failure env s sess cid base issued seconds validity resp :
  session (self s) = Some sess ->
  client_id (self s) = Some cid ->
  base_url (self s) = Some base ->
  token_issue_time (self s) = Some issued ->
  token_expiry (self s) = Some (JNum seconds) ->
  double_of seconds = Some validity ->
  fge (clock env (reads (world s))) (threshold issued validity) = true ->
  transport env (List.length (exchanges (world s)))
            (refresh_request_of sess cid base) = Some resp ->
  status_code resp <> 200 ->
  exists msg s',
    refresh_token env s = (Raise (Exception msg), s') /\
    msg = "Token refresh failed: " +:+ pretty (status_code resp) /\
    mentions (pretty (status_code resp)) msg = true /\
    token (self s') = token (self s) /\
    token_issue_time (self s') = token_issue_time (self s) /\
    token_expiry (self s') = token_expiry (self s) /\
    session (self s') = session (self s) /\
    authorization (self s') = authorization (self s).
Proof.
  intros Hsess Hcid Hbase Hissued Hexpiry Hfloat Hstale Hsend
         Hcode%status_not_200.
  unfold refresh_request_of in *. exec.
  eexists. eexists. split; [reflexivity|].
  unfold authorization. run.
  repeat split; try congruence. apply mentions_tail.
Qed.

(** At the threshold, the server answers 503: the token [t0] stays. *)
Lemma refresh_http_failure_witness :
  exists s',
    refresh_token (scripted [1000; 4540]
                     [Some (granted "t0" 3600); Some (broken 503)])
                  (state_of (logged_in [4540] [Some (broken 503)]))
    = (Raise (Exception "Token refresh failed: 503"), s') /\
    token (self s') = Some (JStr "t0") /\
    token_issue_time (self s') = Some (float_of_Z 1000) /\
    token_expiry (self s') = Some (JNum 3600) /\
    authorization (self s') = Some "Bearer t0".
Proof.
  assert (status_code (broken 503) <> 200) as Hne by discriminate.
  pose proof (refresh_http_failure
                (scripted [1000; 4540]
                   [Some (granted "t0" 3600); Some (broken 503)])
                (state_of (logged_in [4540] [Some (broken 503)]))
                {| headers := <["Authorization" := "Bearer t0"]> stock_headers;
                   default_headers := Some {[ "accept: application/json" ]} |}
                "a7a7a7a7a7a7" (Some "http://127.0.0.1:8000")
                (float_of_Z 1000) 3600 (float_of_Z 3600)
                (broken 503)) as H.
  do 6 specialize (H eq_refl).
  destruct H as (msg & s' & Hrun & -> & _ & Htok & Hissued & Hexpiry & _ & Hauth);
    [vm_compute; reflexivity | reflexivity | exact Hne |].
  exists s'. split; [exact Hrun|].
  rewrite Htok, Hissued, Hexpiry, Hauth. repeat split; reflexivity.
Defined.

(** ** Where the code departs from its documentation *)

(** [refresh_token] reads [token_issue_time]; on an object that never
    logged in the attribute is missing, the call raises AttributeError and
    nothing is sent. *)
Lemma refresh_token_without_login env s :
  token_issue_time (self s) = None ->
  exists s',
    refresh_token env s = (Raise (AttributeError "token_issue_time"), s') /\
    exchanges (world s') = exchanges (world s).
Proof. intros H. exec. eexists. split; reflexivity. Qed.

(** This is the situation of every client built from an API key: only
    [_authenticate] assigns [token_issue_time], and the key branch of
    [__init__] does not call it. *)
Lemma key_identity_never_logged_in env b u p k w o w' :
  truthy (of_arg u) && truthy (of_arg p) = false ->
  new env b u p k w = (Return o, w') ->
  token_issue_time o = None /\ token_expiry o = None /\ token o = None.
Proof.
  intros Hc. run. rewrite Hc.
  destruct (truthy (of_arg k)); run.
  - intros [= <- <-]. repeat split.
  - destruct (truthy (of_arg u) || truthy (of_arg p)); discriminate.
Qed.

(** C8, evaluated on the code: a client built from an API key alone is
    constructed without error, and [refresh_token] on it raises
    AttributeError instead of returning. *)
Lemma keyed_refresh_raises :
  let built := keyed (Some "http://127.0.0.1:8000") [] in
  (exists o, fst built = Return o /\ api_key o = Some (Some "key-1")) /\
  fst (refresh_token (scripted [] []) (state_of built))
  = Raise (AttributeError "token_issue_time") /\
  exchanges (world (snd (refresh_token (scripted [] []) (state_of built)))) = [].
Proof.
  vm_compute. split; [|split; reflexivity].
  eexists. split; reflexivity.
Qed.

(** C9, evaluated on the code: built without a base URL, the object stores
    None, [default_url] is not consulted, and [get_data] asks for
    None/api/widgets. *)
Lemma default_url_is_not_applied :
  let built := keyed None [Some widgets] in
  let after := get_data (scripted [] [Some widgets]) "widgets" (state_of built) in
  (exists o, fst built = Return o /\ base_url o = Some None) /\
  List.map (fun x => url (fst x)) (exchanges (world (snd after)))
  = ["None/api/widgets"] /\
  List.map (fun x => url (fst x)) (exchanges (world (snd after)))
  <> [default_url +:+ "/api/widgets"].
Proof.
  vm_compute. split; [|split; [reflexivity | discriminate]].
  eexists. split; reflexivity.
Qed.

(** ** Consistency of the token bookkeeping *)

(** A step that left the four attributes alone, or installed them from
    the response just received. *)
Ltac together :=
  exec; unfold set_together, installs, tracked, authorization; run;
  first
    [ left; congruence
    | right; do 3 eexists;
      split; [reflexivity|];
      split; [eassumption|];
      split; [reflexivity|];
      split; [reflexivity|];
      split; [lia|];
      split; [reflexivity | apply lookup_insert_eq] ].

Lemma authenticate_set_together env u p s :
  set_together env s (snd (_authenticate env u p s)).
Proof. together. Qed.

Lemma refresh_token_set_together env s :
  set_together env s (snd (refresh_token env s)).
Proof. together. Qed.

Lemma get_data_set_together env endpoint s :
  set_together env s (snd (get_data env endpoint s)).
Proof. together. Qed.

Lemma new_installs env b u p k w o w' :
  new env b u p k w = (Return o, w') ->
  (token o = None /\ token_expiry o = None /\ token_issue_time o = None) \/
  installs env {| self := blank; world := w |} {| self := o; world := w' |}.
Proof.
  run. exec; intros Hnew; try discriminate Hnew; injection Hnew as <- <-;
    unfold installs, authorization; run;
    first
      [ left; repeat split; reflexivity
      | right; do 3 eexists;
        split; [reflexivity|];
        split; [eassumption|];
        split; [reflexivity|];
        split; [reflexivity|];
        split; [lia|];
        split; [reflexivity | apply lookup_insert_eq] ].
Qed.

Lemma untouched_tracked env s1 s :
  untouched env s1 s -> tracked (self s) = tracked (self s1).
Proof. induction 1; congruence. Qed.

(** A step out of a consistent state ends in a consistent state. *)
Lemma step_consistent env s s' :
  step env s s' -> set_together env s s' ->
  consistent env s -> consistent env s'.
Proof.
  intros Hstep [Hsame|Hinst] Hinv tok Htok.
  - assert (token (self s) = Some tok) as Hbefore
      by (unfold tracked in Hsame; congruence).
    destruct (Hinv tok Hbefore) as (s0 & s1 & Hstep0 & Hinst0 & Hsince).
    exists s0, s1. repeat split; try assumption.
    apply (untouched_step env s1 s s'); assumption.
  - exists s, s'. repeat split; try assumption. apply untouched_here.
Qed.

Lemma reachable_is_consistent env s : reachable env s -> consistent env s.
Proof.
  induction 1 as [b u p k w o w' Hnew|s u p Hs IH|s Hs IH|s e Hs IH].
  - intros tok Htok.
    destruct (new_installs env b u p k w o w' Hnew) as [(Hnone & _)|Hinst].
    + cbn in Htok. congruence.
    + exists {| self := blank; world := w |}, {| self := o; world := w' |}.
      repeat split; [apply (step_new env b u p k w o w' Hnew) | exact Hinst
                     | apply untouched_here].
  - apply (step_consistent env s); [apply step_authenticate; assumption
      | apply authenticate_set_together | assumption].
  - apply (step_consistent env s); [apply step_refresh_token; assumption
      | apply refresh_token_set_together | assumption].
  - apply (step_consistent env s); [apply step_get_data; assumption
      | apply get_data_set_together | assumption].
Qed.

(** What a consistent state holds beside the token. *)
Lemma consistent_present env s tok :
  consistent env s -> token (self s) = Some tok ->
  exists expiry issued,
    token_expiry (self s) = Some expiry /\
    token_issue_time (self s) = Some issued /\
    authorization (self s) = Some ("Bearer " +:+ py_str tok).
Proof.
  intros Hinv Htok.
  destruct (Hinv tok Htok) as (s0 & s1 & _ & Hinst & Hsince).
  apply untouched_tracked in Hsince. unfold tracked in Hsince.
  destruct Hinst as (q & resp & fields & _ & _ & Htok1 & Hexp1 & _ & Hiss1 & Hauth1).
  injection Hsince as Ht He Hi Ha.
  exists (assoc "expires_in" fields), (clock env (Nat.pred (reads (world s1)))).
  repeat split; congruence.
Qed.

(** C10 as stated fails on the code: the constructor stores whatever the
    login response holds, so after a granted login without [expires_in] the
    object has the token t0 and no expiry (the attribute is None), in a
    state a program reaches by construction alone. *)
Lemma token_without_expiry :
  let env :=
    scripted [1000]
      [Some {| status_code := 200; text := "(grant)";
               parsed := Some (JObj [("success", JBool true);
                                     ("token", JStr "t0")]) |}] in
  let s := state_of (new env (Some "http://127.0.0.1:8000") (Some "emma")
                       (Some "pw") None genesis) in
  reachable env s /\
  token (self s) = Some (JStr "t0") /\
  token_expiry (self s) = Some JNull /\
  ~ (exists seconds, token_expiry (self s) = Some (JNum seconds)).
Proof.
  cbv zeta. split; [|vm_compute; repeat split; intros [n Hn]; discriminate Hn].
  destruct (new _ _ _ _ _ _) as [[o|e] w] eqn:Hnew.
  - apply (reach_new _ _ _ _ _ _ _ _ Hnew).
  - vm_compute in Hnew. discriminate Hnew.
Qed.

(** C10, amended.  The four attributes are set together, by construction
    and by every method, whatever the call returns or raises: a step either
    leaves token, expiry, issue time and [Authorization] header as they
    were or installs all four from the one response it received and the
    last clock reading it took.  Hence in every state a program can reach,
    a stored token was installed by one step together with the expiry (the
    [expires_in] field of the response that carried the token, None when
    it had none), the issue time (the clock reading of that step) and the
    header, none of which has been touched since; so expiry and issue time
    are assigned and the header is Bearer followed by the stored token. *)
Theorem bookkeeping_is_set_together env :
  (forall b u p k w o w',
     new env b u p k w = (Return o, w') ->
     (token o = None /\ token_expiry o = None /\ token_issue_time o = None)
     \/ installs env {| self := blank; world := w |}
                     {| self := o; world := w' |}) /\
  (forall s u p, set_together env s (snd (_authenticate env u p s))) /\
  (forall s, set_together env s (snd (refresh_token env s))) /\
  (forall s endpoint, set_together env s (snd (get_data env endpoint s))) /\
  (forall s, reachable env s -> consistent env s) /\
  (forall s tok,
     reachable env s -> token (self s) = Some tok ->
     exists expiry issued,
       token_expiry (self s) = Some expiry /\
       token_issue_time (self s) = Some issued /\
       authorization (self s) = Some ("Bearer " +:+ py_str tok)).
Proof.
  split; [exact (new_installs env)|].
  split; [intros s u p; apply authenticate_set_together|].
  split; [intros s; apply refresh_token_set_together|].
  split; [intros s endpoint; apply get_data_set_together|].
  split; [exact (reachable_is_consistent env)|].
  intros s tok Hs.
  apply (consistent_present env s tok (reachable_is_consistent env s Hs)).
Qed.

(** A login followed by a refresh that replaces [t0] by [t1]: the state
    after it is consistent, and the refresh installed expiry 7200 and the
    issue time 4541 together with [t1]. *)
Lemma bookkeeping_is_set_together_witness :
  let env := scripted [1000; 4540; 4541]
               [Some (granted "t0" 3600); Some (granted "t1" 7200)] in
  let s := state_of (new env (Some "http://127.0.0.1:8000") (Some "emma")
                       (Some "pw") None genesis) in
  let s' := snd (refresh_token env s) in
  consistent env s' /\
  set_together env s s' /\
  tracked (self s')
  = (Some (JStr "t1"), Some (JNum 7200), Some (float_of_Z 4541),
     Some "Bearer t1").
Proof.
  cbv zeta.
  destruct (bookkeeping_is_set_together
              (scripted [1000; 4540; 4541]
                 [Some (granted "t0" 3600); Some (granted "t1" 7200)]))
    as (_ & _ & Hrefresh & _ & Hreach & _).
  split; [|split; [apply Hrefresh | vm_compute; reflexivity]].
  apply Hreach. apply reach_refresh_token.
  destruct (new _ _ _ _ _ _) as [[o|e] w] eqn:Hnew.
  - apply (reach_new _ _ _ _ _ _ _ _ Hnew).
  - vm_compute in Hnew. discriminate Hnew.
Defined.

(** * Further properties of the methods *)

(** ** Reading data *)

(** X1.  [get_data] on a JSON body: whatever the status code, the decoded
    body is returned as it is; exactly the GET for
    base_url/api/endpoint was sent, with the session's headers and no body;
    the response is kept in [self.request]; token, expiry, issue time and
    session are untouched and the clock is not read. *)
Theorem get_data_returns_body env s sess base endpoint resp v :
  session (self s) = Some sess ->
  base_url (self s) = Some base ->
  transport env (List.length (exchanges (world s)))
            (data_request sess base endpoint) = Some resp ->
  parsed resp = Some v ->
  exists s',
    get_data env endpoint s = (Return v, s') /\
    exchanges (world s')
    = exchanges (world s) ++ [(data_request sess base endpoint, Some resp)] /\
    request (self s') = Some resp /\
    bookkeeping (self s') = bookkeeping (self s) /\
    reads (world s') = reads (world s).
Proof.
  intros Hsess Hbase Hsend Hbody. unfold data_request, bookkeeping in *. exec.
  eexists. split; [reflexivity|]. run. repeat split; congruence.
Qed.

(** An answer of status 401 is returned like any other. *)
Lemma get_data_returns_body_witness :
  exists s',
    get_data (scripted [1000]
                [Some (granted "t0" 3600);
                 Some {| status_code := 401; text := "(denied)";
                         parsed := Some (JObj [("detail", JStr "expired")]) |}])
             "widgets"
             (state_of (logged_in []
                [Some {| status_code := 401; text := "(denied)";
                         parsed := Some (JObj [("detail", JStr "expired")]) |}]))
    = (Return (JObj [("detail", JStr "expired")]), s') /\
    List.map (fun x => (method (fst x), url (fst x))) (exchanges (world s'))
    = [(POST, "http://127.0.0.1:8000/auth/login");
       (GET, "http://127.0.0.1:8000/api/widgets")].
Proof.
  pose proof (get_data_returns_body
                (scripted [1000]
                   [Some (granted "t0" 3600);
                    Some {| status_code := 401; text := "(denied)";
                            parsed := Some (JObj [("detail", JStr "expired")]) |}])
                (state_of (logged_in []
                   [Some {| status_code := 401; text := "(denied)";
                            parsed := Some (JObj [("detail", JStr "expired")]) |}]))
                {| headers := <["Authorization" := "Bearer t0"]> stock_headers;
                   default_headers := Some {[ "accept: application/json" ]} |}
                (Some "http://127.0.0.1:8000") "widgets"
                {| status_code := 401; text := "(denied)";
                   parsed := Some (JObj [("detail", JStr "expired")]) |}
                (JObj [("detail", JStr "expired")])) as H.
  do 4 specialize (H eq_refl).
  destruct H as (s' & Hrun & Hsent & _).
  exists s'. split; [exact Hrun|]. rewrite Hsent. reflexivity.
Defined.

(** X2.  [get_data] on a body that is not JSON: the request has been sent
    and the response stored when the decoding error is raised; token,
    expiry, issue time and session are untouched. *)
Theorem get_data_invalid_json env s sess base endpoint resp :
  session (self s) = Some sess ->
  base_url (self s) = Some base ->
  transport env (List.length (exchanges (world s)))
            (data_request sess base endpoint) = Some resp ->
  parsed resp = None ->
  exists s',
    get_data env endpoint s = (Raise JSONDecodeError, s') /\
    exchanges (world s')
    = exchanges (world s) ++ [(data_request sess base endpoint, Some resp)] /\
    request (self s') = Some resp /\
    bookkeeping (self s') = bookkeeping (self s).
Proof.
  intros Hsess Hbase Hsend Hbody. unfold data_request, bookkeeping in *. exec.
  eexists. split; [reflexivity|]. run. repeat split; congruence.
Qed.

Lemma get_data_invalid_json_witness :
  exists s',
    get_data (scripted [] [Some (broken 502)]) "widgets"
             (state_of (keyed (Some "http://127.0.0.1:8000") [Some (broken 502)]))
    = (Raise JSONDecodeError, s') /\
    request (self s') = Some (broken 502).
Proof.
  pose proof (get_data_invalid_json
                (scripted [] [Some (broken 502)])
                (state_of (keyed (Some "http://127.0.0.1:8000")
                                 [Some (broken 502)]))
                {| headers := stock_headers;
                   default_headers := Some {[ "accept: application/json" ]} |}
                (Some "http://127.0.0.1:8000") "widgets" (broken 502)) as H.
  do 4 specialize (H eq_refl).
  destruct H as (s' & Hrun & _ & Hreq & _).
  exists s'. split; assumption.
Defined.

(** X3.  [get_data] never refreshes: on any object, in any world and
    whatever the call returns or raises, token, expiry, issue time and
    session are what they were, and neither the clock nor the entropy source
    has been read. *)
Theorem get_data_leaves_token_alone env endpoint s :
  bookkeeping (self (snd (get_data env endpoint s))) = bookkeeping (self s) /\
  reads (world (snd (get_data env endpoint s))) = reads (world s) /\
  entropy (world (snd (get_data env endpoint s))) = entropy (world s).
Proof.
  unfold bookkeeping. exec; repeat split; congruence.
Qed.

(** ** More on refresh *)

(** X4.  A refresh found due by the test of line 79 (made on floats, the
    expiry converted to a float) and answered with status 200 and a true
    [success] field replaces the token and the expiry by those of the response, sets the
    issue time to the clock reading taken after the answer (the second
    reading of the call), and points the [Authorization] header at the new
    token; exactly the refresh request was sent. *)
Theorem refresh_success env s sess cid base issued seconds validity resp fields :
  session (self s) = Some sess ->
  client_id (self s) = Some cid ->
  base_url (self s) = Some base ->
  token_issue_time (self s) = Some issued ->
  token_expiry (self s) = Some (JNum seconds) ->
  double_of seconds = Some validity ->
  fge (clock env (reads (world s))) (threshold issued validity) = true ->
  transport env (List.length (exchanges (world s)))
            (refresh_request_of sess cid base) = Some resp ->
  status_code resp = 200 ->
  parsed resp = Some (JObj fields) ->
  truthy (assoc "success" fields) = true ->
  exists s',
    refresh_token env s = (Return tt, s') /\
    token (self s') = Some (assoc "token" fields) /\
    token_expiry (self s') = Some (assoc "expires_in" fields) /\
    token_issue_time (self s') = Some (clock env (S (reads (world s)))) /\
    authorization (self s')
    = Some ("Bearer " +:+ py_str (assoc "token" fields)) /\
    reads (world s') = S (S (reads (world s))) /\
    exchanges (world s')
    = exchanges (world s) ++ [(refresh_request_of sess cid base, Some resp)].
Proof.
  intros Hsess Hcid Hbase Hissued Hexpiry Hfloat Hstale Hsend
         Hcode%status_is_200 Hbody Hsucc.
  unfold refresh_request_of in *. exec.
  eexists. split; [reflexivity|].
  unfold authorization. run. rewrite lookup_insert_eq. repeat split.
Qed.

(** At the threshold the server grants [t1] for 7200 seconds. *)
Lemma refresh_success_witness :
  exists s',
    refresh_token (scripted [1000; 4540; 4541]
                     [Some (granted "t0" 3600); Some (granted "t1" 7200)])
                  (state_of (logged_in [4540; 4541] [Some (granted "t1" 7200)]))
    = (Return tt, s') /\
    token (self s') = Some (JStr "t1") /\
    token_expiry (self s') = Some (JNum 7200) /\
    token_issue_time (self s') = Some (float_of_Z 4541) /\
    authorization (self s') = Some "Bearer t1".
Proof.
  pose proof (refresh_success
                (scripted [1000; 4540; 4541]
                   [Some (granted "t0" 3600); Some (granted "t1" 7200)])
                (state_of (logged_in [4540; 4541] [Some (granted "t1" 7200)]))
                {| headers := <["Authorization" := "Bearer t0"]> stock_headers;
                   default_headers := Some {[ "accept: application/json" ]} |}
                "a7a7a7a7a7a7" (Some "http://127.0.0.1:8000")
                (float_of_Z 1000) 3600 (float_of_Z 3600)
                (granted "t1" 7200)
                [("success", JBool true); ("token", JStr "t1");
                 ("expires_in", JNum 7200); ("username", JStr "emma")]) as H.
  do 6 specialize (H eq_refl).
  destruct H as (s' & Hrun & Htok & Hexp & Hiss & Hauth & _);
    [vm_compute; reflexivity | reflexivity .. |].
  exists s'. repeat split; assumption.
Defined.

(** X5.  After such a refresh the next call is quiet: when the clock then
    reads less than the new issue time + the new expiry - 60 (computed on
    floats as line 79 does, the new expiry being an int in range), a second
    [refresh_token] returns without sending anything and changes nothing of
    the new bookkeeping. *)
Theorem refresh_then_fresh env s sess cid base issued seconds validity resp
    fields seconds' validity' :
  session (self s) = Some sess ->
  client_id (self s) = Some cid ->
  base_url (self s) = Some base ->
  token_issue_time (self s) = Some issued ->
  token_expiry (self s) = Some (JNum seconds) ->
  double_of seconds = Some validity ->
  fge (clock env (reads (world s))) (threshold issued validity) = true ->
  transport env (List.length (exchanges (world s)))
            (refresh_request_of sess cid base) = Some resp ->
  status_code resp = 200 ->
  parsed resp = Some (JObj fields) ->
  truthy (assoc "success" fields) = true ->
  assoc "expires_in" fields = JNum seconds' ->
  double_of seconds' = Some validity' ->
  flt (clock env (S (S (reads (world s)))))
      (threshold (clock env (S (reads (world s)))) validity') = true ->
  exists s' s'',
    refresh_token env s = (Return tt, s') /\
    refresh_token env s' = (Return tt, s'') /\
    exchanges (world s'') = exchanges (world s') /\
    bookkeeping (self s'') = bookkeeping (self s').
Proof.
  intros Hsess Hcid Hbase Hissued Hexpiry Hfloat Hstale Hsend
         Hcode%status_is_200 Hbody Hsucc Hnew Hfloat' Hfresh%flt_not_fge.
  unfold refresh_request_of in *.
  eexists. eexists. split; [exec; reflexivity|].
  split; [exec; reflexivity|].
  unfold bookkeeping. run. rewrite ?Hnew. split; reflexivity.
Qed.

(** [t1] is issued at 4541 for 7200 seconds; at 4600 nothing is sent. *)
Lemma refresh_then_fresh_witness :
  exists s' s'',
    refresh_token (scripted [1000; 4540; 4541; 4600]
                     [Some (granted "t0" 3600); Some (granted "t1" 7200)])
                  (state_of (logged_in [4540; 4541; 4600]
                               [Some (granted "t1" 7200)]))
    = (Return tt, s') /\
    refresh_token (scripted [1000; 4540; 4541; 4600]
                     [Some (granted "t0" 3600); Some (granted "t1" 7200)]) s'
    = (Return tt, s'') /\
    exchanges (world s'') = exchanges (world s') /\
    bookkeeping (self s'') = bookkeeping (self s').
Proof.
  pose proof (refresh_then_fresh
                (scripted [1000; 4540; 4541; 4600]
                   [Some (granted "t0" 3600); Some (granted "t1" 7200)])
                (state_of (logged_in [4540; 4541; 4600]
                             [Some (granted "t1" 7200)]))
                {| headers := <["Authorization" := "Bearer t0"]> stock_headers;
                   default_headers := Some {[ "accept: application/json" ]} |}
                "a7a7a7a7a7a7" (Some "http://127.0.0.1:8000")
                (float_of_Z 1000) 3600 (float_of_Z 3600)
                (granted "t1" 7200)
                [("success", JBool true); ("token", JStr "t1");
                 ("expires_in", JNum 7200); ("username", JStr "emma")]
                7200 (float_of_Z 7200)) as H.
  do 6 specialize (H eq_refl).
  destruct H as (s' & s'' & Hrun & Hrun' & Hsent & Hkeep);
    [vm_compute; reflexivity | reflexivity | reflexivity | reflexivity
    | reflexivity | reflexivity | reflexivity | vm_compute; reflexivity |].
  exists s', s''. repeat split; assumption.
Defined.

(** X6.  An expiry that is not a number stops [refresh_token] before
    anything is sent: with the stored expiry None (a login response without
    [expires_in]), a string, a list or a dict the threshold cannot be
    computed and TypeError is raised; token, expiry, issue time and session
    stay as they were. *)
Theorem refresh_needs_numeric_expiry env s issued v :
  token_issue_time (self s) = Some issued ->
  token_expiry (self s) = Some v ->
  (forall n, v <> JNum n) ->
  (forall b, v <> JBool b) ->
  exists s',
    refresh_token env s = (Raise TypeError, s') /\
    exchanges (world s') = exchanges (world s) /\
    bookkeeping (self s') = bookkeeping (self s).
Proof.
  intros Hissued Hexpiry Hnum Hbool. unfold bookkeeping.
  destruct v as [|b|n| | |];
    try (exfalso; eapply Hbool; reflexivity);
    try (exfalso; eapply Hnum; reflexivity);
    exec; eexists; (split; [reflexivity|]); run; split; congruence.
Qed.

(** The server granted a token without [expires_in]; the refresh check then
    fails. *)
Lemma refresh_needs_numeric_expiry_witness :
  exists s',
    refresh_token
      (scripted [1000; 2000]
         [Some {| status_code := 200; text := "(grant)";
                  parsed := Some (JObj [("success", JBool true);
                                        ("token", JStr "t0")]) |}])
      (state_of (new (scripted [1000; 2000]
                   [Some {| status_code := 200; text := "(grant)";
                            parsed := Some (JObj [("success", JBool true);
                                                  ("token", JStr "t0")]) |}])
                   (Some "http://127.0.0.1:8000") (Some "emma") (Some "pw")
                   None genesis))
    = (Raise TypeError, s') /\
    List.length (exchanges (world s')) = 1%nat.
Proof.
  pose proof (refresh_needs_numeric_expiry
      (scripted [1000; 2000]
         [Some {| status_code := 200; text := "(grant)";
                  parsed := Some (JObj [("success", JBool true);
                                        ("token", JStr "t0")]) |}])
      (state_of (new (scripted [1000; 2000]
                   [Some {| status_code := 200; text := "(grant)";
                            parsed := Some (JObj [("success", JBool true);
                                                  ("token", JStr "t0")]) |}])
                   (Some "http://127.0.0.1:8000") (Some "emma") (Some "pw")
                   None genesis))
      (float_of_Z 1000) JNull) as H.
  do 2 specialize (H eq_refl).
  destruct H as (s' & Hrun & Hsent & _); [discriminate | discriminate |].
  exists s'. split; [exact Hrun|]. rewrite Hsent. reflexivity.
Defined.

(** X18.  An int expiry beyond the range of floats stops [refresh_token]
    before anything is sent: converting it for the addition of line 79
    raises OverflowError, and token, expiry, issue time and session stay as
    they were. *)
Theorem refresh_expiry_out_of_range env s issued seconds :
  token_issue_time (self s) = Some issued ->
  token_expiry (self s) = Some (JNum seconds) ->
  double_of seconds = None ->
  exists s',
    refresh_token env s = (Raise OverflowError, s') /\
    exchanges (world s') = exchanges (world s) /\
    bookkeeping (self s') = bookkeeping (self s).
Proof.
  intros Hissued Hexpiry Hfloat. unfold bookkeeping. exec.
  eexists. split; [reflexivity|]. run. split; congruence.
Qed.

(** The server granted a token for 10^400 seconds. *)
Lemma refresh_expiry_out_of_range_witness :
  let env := scripted [1000; 2000] [Some (granted "t0" (10 ^ 400))] in
  let s := state_of (new env (Some "http://127.0.0.1:8000") (Some "emma")
                       (Some "pw") None genesis) in
  exists s',
    refresh_token env s = (Raise OverflowError, s') /\
    exchanges (world s') = exchanges (world s) /\
    bookkeeping (self s') = bookkeeping (self s).
Proof.
  cbv zeta.
  apply (refresh_expiry_out_of_range
           (scripted [1000; 2000] [Some (granted "t0" (10 ^ 400))])
           (state_of (new (scripted [1000; 2000]
                             [Some (granted "t0" (10 ^ 400))])
                        (Some "http://127.0.0.1:8000") (Some "emma")
                        (Some "pw") None genesis))
           (float_of_Z 1000) (10 ^ 400));
    [reflexivity | reflexivity | vm_compute; reflexivity].
Defined.

(** ** What no call does *)

(** X7.  No retry: each method sends at most one request per call,
    whatever the object, the world and the outcome; what was sent before
    stays in the trace. *)
Theorem one_request_per_call env s :
  let at_most_one s' :=
    exchanges (world s') = exchanges (world s) \/
    exists q answer,
      exchanges (world s') = exchanges (world s) ++ [(q, answer)] in
  (forall u p, at_most_one (snd (_authenticate env u p s))) /\
  at_most_one (snd (refresh_token env s)) /\
  (forall endpoint, at_most_one (snd (get_data env endpoint s))).
Proof.
  cbv zeta. repeat split; intros;
    exec; solve [left; reflexivity | right; eexists; eexists; reflexivity].
Qed.

(** What every method leaves in place, whatever it returns or raises. *)
Lemma methods_frame env s :
  let kept s' :=
    client_id (self s') = client_id (self s) /\
    base_url (self s') = base_url (self s) /\
    api_key (self s') = api_key (self s) /\
    (is_Some (session (self s)) -> is_Some (session (self s'))) in
  (forall u p, kept (snd (_authenticate env u p s))) /\
  kept (snd (refresh_token env s)) /\
  (forall endpoint, kept (snd (get_data env endpoint s))).
Proof.
  cbv zeta. split; [|split]; intros; exec;
    repeat split; try congruence; intros _; eauto.
Qed.

(** X8.  What construction fixed stays fixed: no method reassigns the
    client id, the base URL or the API key, whatever it returns or raises. *)
Theorem identity_is_immutable env s :
  let same s' :=
    client_id (self s') = client_id (self s) /\
    base_url (self s') = base_url (self s) /\
    api_key (self s') = api_key (self s) in
  (forall u p, same (snd (_authenticate env u p s))) /\
  same (snd (refresh_token env s)) /\
  (forall endpoint, same (snd (get_data env endpoint s))).
Proof.
  destruct (methods_frame env s) as (Hauth & Hrefresh & Hget). cbv zeta.
  split; [|split].
  - intros u p. destruct (Hauth u p) as (? & ? & ? & _). auto.
  - destruct Hrefresh as (? & ? & ? & _). auto.
  - intros endpoint. destruct (Hget endpoint) as (? & ? & ? & _). auto.
Qed.

(** X9.  [_authenticate] keeps what it was given: once called, the
    object holds the username and the password of the call, and they stay
    there also when the login is refused, the connection fails or the
    answer cannot be decoded. *)
Theorem credentials_are_retained env u p s :
  username (self (snd (_authenticate env u p s))) = Some u /\
  password (self (snd (_authenticate env u p s))) = Some p.
Proof. exec; split; congruence. Qed.

(** ** More on login *)

(** [d.get(key)] on a dict without the key is None. *)
Lemma assoc_missing key fields :
  ~ In key (List.map fst fields) -> assoc key fields = JNull.
Proof.
  induction fields as [|[k v] rest IH]; [reflexivity|].
  cbn [List.map fst In assoc]. intros Hno.
  destruct (String.eqb k key) eqn:Hk.
  - apply String.eqb_eq in Hk. exfalso. apply Hno. left. exact Hk.
  - apply IH. intros Hin. apply Hno. right. exact Hin.
Qed.

(** X10.  A login answered with status 200 and a body that is not a JSON
    object raises before anything is installed: the decoding error for a
    body that is not JSON, AttributeError for JSON that is not a dict (it
    has no [get]); token, expiry, issue time and session stay as they were. *)
Theorem login_body_not_object env s u p sess cid base resp :
  session (self s) = Some sess ->
  client_id (self s) = Some cid ->
  base_url (self s) = Some base ->
  transport env (List.length (exchanges (world s)))
            (login_request sess cid base u p) = Some resp ->
  status_code resp = 200 ->
  (forall fields, parsed resp <> Some (JObj fields)) ->
  exists s',
    _authenticate env u p s
    = (Raise (match parsed resp with
              | None => JSONDecodeError
              | Some _ => AttributeError "get"
              end), s') /\
    bookkeeping (self s') = bookkeeping (self s).
Proof.
  intros Hsess Hcid Hbase Hsend Hcode%status_is_200 Hshape.
  unfold login_request, bookkeeping in *.
  destruct (parsed resp) as [[| | | | |fields]|] eqn:Hbody;
    try (exfalso; eapply Hshape; reflexivity);
    exec; eexists; (split; [reflexivity|]); run; congruence.
Qed.

(** The server answers the login with a JSON list. *)
Lemma login_body_not_object_witness :
  exists s',
    _authenticate (scripted [] [Some widgets]) (Some "emma") (Some "pw")
      (state_of (keyed (Some "http://127.0.0.1:8000") []))
    = (Raise (AttributeError "get"), s') /\
    bookkeeping (self s')
    = bookkeeping (self (state_of (keyed (Some "http://127.0.0.1:8000") []))).
Proof.
  assert (forall fields, parsed widgets <> Some (JObj fields)) as Hshape
    by (intros fields; discriminate).
  pose proof (login_body_not_object
                (scripted [] [Some widgets])
                (state_of (keyed (Some "http://127.0.0.1:8000") []))
                (Some "emma") (Some "pw")
                {| headers := stock_headers;
                   default_headers := Some {[ "accept: application/json" ]} |}
                "a7a7a7a7a7a7" (Some "http://127.0.0.1:8000") widgets) as H.
  do 5 specialize (H eq_refl).
  exact (H Hshape).
Defined.

(** X11.  A missing [success] key counts as a refusal: a login answered
    with status 200 and a JSON object that has no [success] field raises the
    success=False error and installs nothing. *)
Theorem login_missing_success_key env s u p sess cid base resp fields :
  session (self s) = Some sess ->
  client_id (self s) = Some cid ->
  base_url (self s) = Some base ->
  transport env (List.length (exchanges (world s)))
            (login_request sess cid base u p) = Some resp ->
  status_code resp = 200 ->
  parsed resp = Some (JObj fields) ->
  ~ In "success" (List.map fst fields) ->
  exists s',
    _authenticate env u p s
    = (Raise (Exception "Authentication failed: API returned success=False."),
       s') /\
    bookkeeping (self s') = bookkeeping (self s).
Proof.
  intros Hsess Hcid Hbase Hsend Hcode%status_is_200 Hbody
         Hmissing%assoc_missing.
  unfold login_request, bookkeeping in *. exec.
  - exfalso. rewrite Hmissing in *. discriminate.
  - eexists. split; [reflexivity|]. run. congruence.
Qed.

(** The server answers the login with a token and no [success] field. *)
Lemma login_missing_success_key_witness :
  exists s',
    _authenticate
      (scripted [] [Some {| status_code := 200; text := "(grant)";
                            parsed := Some (JObj [("token", JStr "t0")]) |}])
      (Some "emma") (Some "pw")
      (state_of (keyed (Some "http://127.0.0.1:8000") []))
    = (Raise (Exception "Authentication failed: API returned success=False."),
       s') /\
    bookkeeping (self s')
    = bookkeeping (self (state_of (keyed (Some "http://127.0.0.1:8000") []))).
Proof.
  assert (~ In "success" (List.map fst [("token", JStr "t0")])) as Hmissing
    by (intros [H|[]]; discriminate H).
  pose proof (login_missing_success_key
      (scripted [] [Some {| status_code := 200; text := "(grant)";
                            parsed := Some (JObj [("token", JStr "t0")]) |}])
      (state_of (keyed (Some "http://127.0.0.1:8000") []))
      (Some "emma") (Some "pw")
      {| headers := stock_headers;
         default_headers := Some {[ "accept: application/json" ]} |}
      "a7a7a7a7a7a7" (Some "http://127.0.0.1:8000")
      {| status_code := 200; text := "(grant)";
         parsed := Some (JObj [("token", JStr "t0")]) |}
      [("token", JStr "t0")]) as H.
  do 6 specialize (H eq_refl).
  exact (H Hmissing).
Defined.

(** X12.  A missing [token] key is not noticed: a login answered with
    status 200, a true [success] field and no [token] field returns
    normally, stores None as the token and makes the session send
    [Authorization: Bearer None]. *)
Theorem login_missing_token_key env s u p sess cid base resp fields :
  session (self s) = Some sess ->
  client_id (self s) = Some cid ->
  base_url (self s) = Some base ->
  transport env (List.length (exchanges (world s)))
            (login_request sess cid base u p) = Some resp ->
  status_code resp = 200 ->
  parsed resp = Some (JObj fields) ->
  truthy (assoc "success" fields) = true ->
  ~ In "token" (List.map fst fields) ->
  exists result s',
    _authenticate env u p s = (Return result, s') /\
    token (self s') = Some JNull /\
    authorization (self s') = Some "Bearer None".
Proof.
  intros Hsess Hcid Hbase Hsend Hcode%status_is_200 Hbody Hsucc
         Hmissing%assoc_missing.
  unfold login_request in *. exec.
  eexists. eexists. split; [reflexivity|].
  unfold authorization. run. rewrite lookup_insert_eq, Hmissing.
  split; reflexivity.
Qed.

(** The server grants the login and sends no token. *)
Lemma login_missing_token_key_witness :
  exists result s',
    _authenticate
      (scripted [1000] [Some {| status_code := 200; text := "(grant)";
                                parsed := Some (JObj [("success", JBool true)]) |}])
      (Some "emma") (Some "pw")
      (state_of (keyed (Some "http://127.0.0.1:8000") []))
    = (Return result, s') /\
    token (self s') = Some JNull /\
    authorization (self s') = Some "Bearer None".
Proof.
  assert (~ In "token" (List.map fst [("success", JBool true)])) as Hmissing
    by (intros [H|[]]; discriminate H).
  pose proof (login_missing_token_key
      (scripted [1000] [Some {| status_code := 200; text := "(grant)";
                                parsed := Some (JObj [("success", JBool true)]) |}])
      (state_of (keyed (Some "http://127.0.0.1:8000") []))
      (Some "emma") (Some "pw")
      {| headers := stock_headers;
         default_headers := Some {[ "accept: application/json" ]} |}
      "a7a7a7a7a7a7" (Some "http://127.0.0.1:8000")
      {| status_code := 200; text := "(grant)";
         parsed := Some (JObj [("success", JBool true)]) |}
      [("success", JBool true)]) as H.
  do 7 specialize (H eq_refl).
  exact (H Hmissing).
Defined.

(** ** When the connection fails *)

(** The case of an answer, when the connection is known to be down. *)
Ltac down :=
  match goal with
  | Hdown : forall q, transport _ _ q = None,
    E : transport _ _ _ = Some _ |- _ =>
      rewrite Hdown in E; discriminate E
  end.

(** X13.  A send that raises is passed on and installs nothing: when the
    transport fails, [_authenticate], [get_data] and a [refresh_token] that
    the test of line 79 finds due raise the transport's exception, the attempted request is in the trace,
    and token, expiry, issue time and session stay as they were. *)
Theorem transport_failure_is_raised env s sess cid base :
  session (self s) = Some sess ->
  client_id (self s) = Some cid ->
  base_url (self s) = Some base ->
  (forall q, transport env (List.length (exchanges (world s))) q = None) ->
  (forall u p, exists s',
     _authenticate env u p s = (Raise RequestException, s') /\
     exchanges (world s')
     = exchanges (world s) ++ [(login_request sess cid base u p, None)] /\
     bookkeeping (self s') = bookkeeping (self s)) /\
  (forall endpoint, exists s',
     get_data env endpoint s = (Raise RequestException, s') /\
     exchanges (world s')
     = exchanges (world s) ++ [(data_request sess base endpoint, None)] /\
     bookkeeping (self s') = bookkeeping (self s)) /\
  (forall issued seconds validity,
     token_issue_time (self s) = Some issued ->
     token_expiry (self s) = Some (JNum seconds) ->
     double_of seconds = Some validity ->
     fge (clock env (reads (world s))) (threshold issued validity) = true ->
     exists s',
       refresh_token env s = (Raise RequestException, s') /\
       exchanges (world s')
       = exchanges (world s) ++ [(refresh_request_of sess cid base, None)] /\
       bookkeeping (self s') = bookkeeping (self s)).
Proof.
  intros Hsess Hcid Hbase Hdown.
  unfold login_request, data_request, refresh_request_of, bookkeeping.
  split; [|split].
  - intros u p. exec; try down.
    eexists. split; [reflexivity|]. run. split; congruence.
  - intros endpoint. exec; try down.
    eexists. split; [reflexivity|]. run. split; congruence.
  - intros issued seconds validity Hissued Hexpiry Hfloat Hstale.
    exec; try down.
    eexists. split; [reflexivity|]. run. split; congruence.
Qed.

(** The server is unreachable after the login. *)
Lemma transport_failure_is_raised_witness :
  let env := scripted [1000; 4540] [Some (granted "t0" 3600)] in
  let s := state_of (logged_in [4540] []) in
  (exists s', get_data env "widgets" s = (Raise RequestException, s') /\
              bookkeeping (self s') = bookkeeping (self s)) /\
  (exists s', refresh_token env s = (Raise RequestException, s') /\
              bookkeeping (self s') = bookkeeping (self s)).
Proof.
  assert (forall q,
            transport (scripted [1000; 4540] [Some (granted "t0" 3600)])
              (List.length (exchanges (world (state_of (logged_in [4540] [])))))
              q = None) as Hdown by (intros q; reflexivity).
  pose proof (transport_failure_is_raised
                (scripted [1000; 4540] [Some (granted "t0" 3600)])
                (state_of (logged_in [4540] []))
                {| headers := <["Authorization" := "Bearer t0"]> stock_headers;
                   default_headers := Some {[ "accept: application/json" ]} |}
                "a7a7a7a7a7a7" (Some "http://127.0.0.1:8000")) as H.
  do 3 specialize (H eq_refl).
  destruct (H Hdown) as (_ & Hget & Hrefresh).
  cbv zeta. split.
  - destruct (Hget "widgets") as (s' & Hrun & _ & Hkeep).
    exists s'. split; assumption.
  - destruct (Hrefresh (float_of_Z 1000) 3600 (float_of_Z 3600))
      as (s' & Hrun & _ & Hkeep);
      [reflexivity | reflexivity | reflexivity | vm_compute; reflexivity |].
    exists s'. split; assumption.
Defined.

(** ** More on construction *)

(** X14.  Construction from a username and a password, when the server
    grants the login: the object is returned holding the token and the
    login result in [authResult]; an API key passed along is not stored;
    six bytes of entropy were drawn for the client id, and the one request
    sent is the login, carrying the headers of a fresh session. *)
Theorem new_with_credentials env b u p k w resp fields :
  truthy (of_arg u) && truthy (of_arg p) = true ->
  transport env (List.length (exchanges w))
            (login_request (fresh_session env) (hex (entropy_bytes env w)) b u p)
  = Some resp ->
  status_code resp = 200 ->
  parsed resp = Some (JObj fields) ->
  truthy (assoc "success" fields) = true ->
  exists o w',
    new env b u p k w = (Return o, w') /\
    token o = Some (assoc "token" fields) /\
    authResult o = Some (JObj [("username", assoc "username" fields);
                               ("timeToExpire", assoc "expires_in" fields)]) /\
    api_key o = None /\
    client_id o = Some (hex (entropy_bytes env w)) /\
    entropy w' = (entropy w + 6)%nat /\
    exchanges w'
    = exchanges w
      ++ [(login_request (fresh_session env) (hex (entropy_bytes env w)) b u p,
           Some resp)].
Proof.
  intros Hc Hsend Hcode%status_is_200 Hbody Hsucc.
  unfold login_request, fresh_session, entropy_bytes in *.
  cbn [headers] in Hsend. run. rewrite Hc. exec.
  eexists. eexists. split; [reflexivity|]. run. repeat split.
Qed.

(** All three identity arguments are given; the key is dropped. *)
Lemma new_with_credentials_witness :
  exists o w',
    new (scripted [1000] [Some (granted "t0" 3600)])
        (Some "http://127.0.0.1:8000") (Some "emma") (Some "pw")
        (Some "key-1") genesis
    = (Return o, w') /\
    token o = Some (JStr "t0") /\
    authResult o = Some (JObj [("username", JStr "emma");
                               ("timeToExpire", JNum 3600)]) /\
    api_key o = None /\
    client_id o = Some "a7a7a7a7a7a7" /\
    entropy w' = 6%nat.
Proof.
  pose proof (new_with_credentials
                (scripted [1000] [Some (granted "t0" 3600)])
                (Some "http://127.0.0.1:8000") (Some "emma") (Some "pw")
                (Some "key-1") genesis (granted "t0" 3600)
                [("success", JBool true); ("token", JStr "t0");
                 ("expires_in", JNum 3600); ("username", JStr "emma")]) as H.
  do 5 specialize (H eq_refl).
  destruct H as (o & w' & Hrun & Htok & Hres & Hkey & Hid & Hent & _).
  exists o, w'. repeat split; assumption.
Defined.

(** X15.  There is no credential client without a login: whenever the
    constructor returns for a username and a password, the server answered
    the login with status 200 and a JSON object with a true [success], and
    the object holds that response's token and expiry, an issue time and
    the login result. *)
Theorem credential_client_is_logged_in env b u p k w o w' :
  truthy (of_arg u) && truthy (of_arg p) = true ->
  new env b u p k w = (Return o, w') ->
  exists resp fields,
    exchanges w'
    = exchanges w
      ++ [(login_request (fresh_session env) (hex (entropy_bytes env w)) b u p,
           Some resp)] /\
    status_code resp = 200 /\
    parsed resp = Some (JObj fields) /\
    truthy (assoc "success" fields) = true /\
    token o = Some (assoc "token" fields) /\
    token_expiry o = Some (assoc "expires_in" fields) /\
    is_Some (token_issue_time o) /\
    is_Some (authResult o).
Proof.
  intros Hc. unfold login_request, fresh_session, entropy_bytes.
  run. rewrite Hc. exec; intros Hnew; try discriminate Hnew.
  injection Hnew as <- <-. do 2 eexists. run.
  repeat split; eauto. apply Z.eqb_eq. assumption.
Qed.

Lemma credential_client_is_logged_in_witness :
  let built := new (scripted [1000] [Some (granted "t0" 3600)])
                   (Some "http://127.0.0.1:8000") (Some "emma") (Some "pw")
                   None genesis in
  exists resp fields,
    status_code resp = 200 /\
    parsed resp = Some (JObj fields) /\
    truthy (assoc "success" fields) = true /\
    token (self (state_of built)) = Some (assoc "token" fields).
Proof.
  cbv zeta.
  destruct (new _ _ _ _ _ _) as [[o|e] w'] eqn:Hnew;
    [|vm_compute in Hnew; discriminate Hnew].
  destruct (credential_client_is_logged_in
              (scripted [1000] [Some (granted "t0" 3600)])
              (Some "http://127.0.0.1:8000") (Some "emma") (Some "pw") None
              genesis o w' eq_refl Hnew)
    as (resp & fields & Hsent & Hcode & Hbody & Hsucc & Htok & _).
  exists resp, fields. cbn [snd state_of self].
  repeat split; assumption.
Defined.

(** ** What every constructed object has *)

Lemma hex_digits bs :
  Forall (fun c => is_hex c = true) (list_ascii_of_string (hex bs)).
Proof.
  induction bs as [|b bs IH]; [constructor|].
  cbn [hex list_ascii_of_string].
  constructor; [|constructor; [|exact IH]]; destruct b; reflexivity.
Qed.

Lemma new_constructed env b u p k w o w' :
  new env b u p k w = (Return o, w') -> constructed o.
Proof.
  run. exec; intros Hnew; try discriminate Hnew;
    injection Hnew as <- <-; unfold constructed; run;
    (split; [eauto|]); (split; [eauto|]);
    exists (hex (entropy_bytes env w)); (split; [reflexivity|]);
    (split; [rewrite hex_length; reflexivity | apply hex_digits]).
Qed.

(** X16.  Every object a program can hold is fully set up: in each state
    reached by constructing a handler and calling its methods in any order,
    the session and the base URL are assigned and the client id is twelve
    characters of 0-9a-f, so no method fails for a missing one of them. *)
Theorem reachable_constructed env s :
  reachable env s -> constructed (self s).
Proof.
  induction 1 as [b u p k w o w' Hnew
                 |s u p _ IH|s _ IH|s endpoint _ IH].
  - exact (new_constructed _ _ _ _ _ _ _ _ Hnew).
  - destruct (methods_frame env s) as (Hauth & _ & _).
    destruct (Hauth u p) as (Hid & Hbase & _ & Hsess).
    destruct IH as (? & ? & ?). unfold constructed.
    rewrite Hid, Hbase. auto.
  - destruct (methods_frame env s) as (_ & (Hid & Hbase & _ & Hsess) & _).
    destruct IH as (? & ? & ?). unfold constructed.
    rewrite Hid, Hbase. auto.
  - destruct (methods_frame env s) as (_ & _ & Hget).
    destruct (Hget endpoint) as (Hid & Hbase & _ & Hsess).
    destruct IH as (? & ? & ?). unfold constructed.
    rewrite Hid, Hbase. auto.
Qed.

(** A key client after a failed data request. *)
Lemma reachable_constructed_witness :
  let env := scripted [] [Some (broken 502)] in
  constructed
    (self (snd (get_data env "widgets"
                  (state_of (new env None None None (Some "key-1") genesis))))).
Proof.
  cbv zeta. apply (reachable_constructed (scripted [] [Some (broken 502)])).
  apply reach_get_data.
  destruct (new _ _ _ _ _ _) as [[o|e] w] eqn:Hnew.
  - apply (reach_new _ _ _ _ _ _ _ _ Hnew).
  - vm_compute in Hnew. discriminate Hnew.
Defined.

(** ** Refresh, then read *)

(** X17.  The refreshed token is the one sent next: after a refresh that
    the test of line 79 found due and the server granted, the request of a following [get_data] carries the
    session's headers with [Authorization] set to Bearer and the new token;
    the previous value of that header is gone. *)
Theorem refreshed_token_is_sent env s sess cid base issued seconds validity resp fields
    endpoint :
  session (self s) = Some sess ->
  client_id (self s) = Some cid ->
  base_url (self s) = Some base ->
  token_issue_time (self s) = Some issued ->
  token_expiry (self s) = Some (JNum seconds) ->
  double_of seconds = Some validity ->
  fge (clock env (reads (world s))) (threshold issued validity) = true ->
  transport env (List.length (exchanges (world s)))
            (refresh_request_of sess cid base) = Some resp ->
  status_code resp = 200 ->
  parsed resp = Some (JObj fields) ->
  truthy (assoc "success" fields) = true ->
  exists s',
    refresh_token env s = (Return tt, s') /\
    exists answer,
      exchanges (world (snd (get_data env endpoint s')))
      = exchanges (world s')
        ++ [({| method := GET;
                url := py_str (of_arg base) +:+ "/api/" +:+ endpoint;
                body := None;
                sent_headers :=
                  <["Authorization" :=
                      "Bearer " +:+ py_str (assoc "token" fields)]>
                    (headers sess) |}, answer)].
Proof.
  intros Hsess Hcid Hbase Hissued Hexpiry Hfloat Hstale Hsend
         Hcode%status_is_200 Hbody Hsucc.
  unfold refresh_request_of in *.
  eexists. split; [exec; reflexivity|].
  exec; eexists; reflexivity.
Qed.

(** [t0] is replaced by [t1]; the data request carries [t1]. *)
Lemma refreshed_token_is_sent_witness :
  let env := scripted [1000; 4540; 4541]
               [Some (granted "t0" 3600); Some (granted "t1" 7200);
                Some widgets] in
  let s := state_of (logged_in [4540; 4541]
                       [Some (granted "t1" 7200); Some widgets]) in
  exists s',
    refresh_token env s = (Return tt, s') /\
    exists q answer,
      exchanges (world (snd (get_data env "widgets" s')))
      = exchanges (world s') ++ [(q, answer)] /\
      sent_headers q !! "Authorization" = Some "Bearer t1".
Proof.
  pose proof (refreshed_token_is_sent
                (scripted [1000; 4540; 4541]
                   [Some (granted "t0" 3600); Some (granted "t1" 7200);
                    Some widgets])
                (state_of (logged_in [4540; 4541]
                             [Some (granted "t1" 7200); Some widgets]))
                {| headers := <["Authorization" := "Bearer t0"]> stock_headers;
                   default_headers := Some {[ "accept: application/json" ]} |}
                "a7a7a7a7a7a7" (Some "http://127.0.0.1:8000")
                (float_of_Z 1000) 3600 (float_of_Z 3600)
                (granted "t1" 7200)
                [("success", JBool true); ("token", JStr "t1");
                 ("expires_in", JNum 7200); ("username", JStr "emma")]
                "widgets") as H.
  do 6 specialize (H eq_refl).
  destruct H as (s' & Hrun & answer & Hsent);
    [vm_compute; reflexivity | reflexivity .. |].
  cbv zeta. exists s'. split; [exact Hrun|].
  eexists. exists answer. split; [exact Hsent|].
  cbn [sent_headers]. apply lookup_insert_eq.
Defined.
